(** * Composio JS SDK: Apps, ConnectedAccounts and ConnectionRequest

    A shallow embedding of [js/src/sdk/models/apps.ts] and
    [js/src/sdk/models/connectedAccounts.ts].

    - JS objects used as dictionaries are [gmap string _];
    - [async] methods are computations in a small monad that threads the
      state of the outside world (backend, clock), can throw, and records
      every observable effect (telemetry, schema parse, HTTP request,
      clock read, sleep) in a chronological list of events;
    - the generated HTTP client, the zod schemas, [CEG.handleAllError] and
      the [Integrations] collaborator are not part of these two files: they
      are the fields of the [Platform] class the methods are written
      against. *)

From Stdlib Require Import ZArith Ascii String List Lia Bool.
From stdpp Require Import base option gmap strings list fin_maps.

Local Set Warnings "-register-all".
Local Open Scope string_scope.
Local Open Scope Z_scope.
Local Open Scope list_scope.

(** ** Plain JS data *)

(** Opaque JSON payloads that the SDK only passes along. *)
Inductive JsValue : Type :=
| JsNull
| JsString (s : string)
| JsNumber (z : Z)
| JsBool (b : bool)
| JsArray (l : list JsValue)
| JsObject (kv : list (string * JsValue)).

(** A value that may be [undefined] or [null] at run time. *)
Inductive js_opt (A : Type) : Type :=
| JUndefined
| JNull
| JSome (a : A).
Arguments JUndefined {A}.
Arguments JNull {A}.
Arguments JSome {A} a.

(** [x ?? null] *)
Definition nullish_null {A} (x : js_opt A) : js_opt A :=
  match x with
  | JSome a => JSome a
  | JUndefined | JNull => JNull
  end.

(** [o?.p] on a possibly undefined object [o] whose property [p] is a
    string. *)
Definition opt_chain {A B} (p : A → B) (o : option A) : js_opt B :=
  match o with
  | Some a => JSome (p a)
  | None => JUndefined
  end.

(** Truthiness of a [string | undefined]: the empty string is falsy. *)
Definition truthy_str (o : option string) : bool :=
  match o with
  | Some s => negb (String.eqb s "")
  | None => false
  end.

(** Truthiness of a JS value: [null], the empty string, zero and [false]
    are falsy, arrays and objects are truthy. *)
Definition truthy_js (v : JsValue) : bool :=
  match v with
  | JsNull => false
  | JsString s => negb (String.eqb s "")
  | JsNumber z => negb (z =? 0)
  | JsBool b => b
  | JsArray _ => true
  | JsObject _ => true
  end.

(** Truthiness of a value that may be [undefined]. *)
Definition truthy_obj (o : option JsValue) : bool :=
  match o with
  | Some v => truthy_js v
  | None => false
  end.

(** ** Data model of apps.ts *)

Module Field.
Record t : Type := mk
  { name : string;
    required : bool;
    expected_from_customer : bool }.
End Field.

Module AuthScheme.
Record t : Type := mk
  { mode : string;
    fields : list Field.t }.
End AuthScheme.

(** [SingleAppInfoResDTO], restricted to what the two files read. *)
Module App.
Record t : Type := mk
  { appId : option string;
    key : string;
    auth_schemes : option (list AuthScheme.t) }.
End App.

(** [RequiredParamsResponse] *)
Module RequiredParams.
Record t : Type := mk
  { required_fields : list string;
    optional_fields : list string;
    expected_from_user : list string }.
End RequiredParams.

(** ** A plain object used as a dictionary of summaries

    [authSchemesObject] starts as [{}], an object whose prototype is
    [Object.prototype]. Assigning under the key ["__proto__"] goes through
    the accessor of [Object.prototype] and replaces the prototype of the
    object instead of creating a key; assigning under any other key creates
    or overwrites an own property. [own] holds the own properties, [proto]
    the summary installed as prototype, if any. *)
Module JsDict.
Record t : Type := mk
  { own : gmap string RequiredParams.t;
    proto : option RequiredParams.t }.
End JsDict.

(** What a property read on such an object can yield. *)
Inductive prop_value : Type :=
| PUndefined
| PSummary (r : RequiredParams.t)
| PNames (l : list string)
| PBuiltin (name : string)
| PObjectPrototype.

(** The function-valued properties of an unmodified [Object.prototype]. *)
Definition object_prototype_functions : list string :=
  ["constructor"; "__defineGetter__"; "__defineSetter__"; "hasOwnProperty";
   "__lookupGetter__"; "__lookupSetter__"; "isPrototypeOf";
   "propertyIsEnumerable"; "toString"; "valueOf"; "toLocaleString"].

(** All property names of [Object.prototype]. *)
Definition object_prototype_names : list string :=
  "__proto__" :: object_prototype_functions.

(** The own properties of a summary object. *)
Definition summary_property (r : RequiredParams.t) (k : string)
    : option (list string) :=
  if String.eqb k "required_fields" then
    Some (RequiredParams.required_fields r)
  else if String.eqb k "optional_fields" then
    Some (RequiredParams.optional_fields r)
  else if String.eqb k "expected_from_user" then
    Some (RequiredParams.expected_from_user r)
  else None.

(** A read that finds no own property walks the prototype chain: through
    the summary installed as prototype, if there is one, then through
    [Object.prototype]. ["__proto__"] reads the prototype itself. *)
Definition js_inherited (proto : option RequiredParams.t) (k : string)
    : prop_value :=
  if String.eqb k "__proto__" then
    match proto with
    | Some r => PSummary r
    | None => PObjectPrototype
    end
  else
    match proto ≫= (λ r, summary_property r k) with
    | Some l => PNames l
    | None =>
        if bool_decide (k ∈ object_prototype_functions) then PBuiltin k
        else PUndefined
    end.

(** [{}] *)
Definition js_empty : JsDict.t := JsDict.mk ∅ None.

(** [d[k]]. An object built by assignments has no own key ["__proto__"]. *)
Definition js_get (d : JsDict.t) (k : string) : prop_value :=
  match (if String.eqb k "__proto__" then None else JsDict.own d !! k) with
  | Some r => PSummary r
  | None => js_inherited (JsDict.proto d) k
  end.

(** [d[k] = v], for an object [v]. *)
Definition js_set (k : string) (v : RequiredParams.t) (d : JsDict.t)
    : JsDict.t :=
  if String.eqb k "__proto__" then JsDict.mk (JsDict.own d) (Some v)
  else JsDict.mk (<[k := v]> (JsDict.own d)) (JsDict.proto d).

(** An update in place of the summary object that [d[k]] holds, as
    [d[k].expected_from_user.push(n)] makes one. (Nothing happens when [d[k]]
    is no summary, where JS would throw or reach another object; the loop
    below only updates under a key it has just assigned.) *)
Definition js_alter (f : RequiredParams.t → RequiredParams.t) (k : string)
    (d : JsDict.t) : JsDict.t :=
  if String.eqb k "__proto__" then JsDict.mk (JsDict.own d) (f <$> JsDict.proto d)
  else JsDict.mk (alter f k (JsDict.own d)) (JsDict.proto d).

(** [RequiredParamsFullResponse] *)
Module RequiredParamsFull.
Record t : Type := mk
  { availableAuthSchemes : list string;
    authSchemes : JsDict.t }.
End RequiredParamsFull.

(** ** The field-classification loop of [Apps.getRequiredParams] *)

(** [{ required_fields: [], optional_fields: [], expected_from_user: [] }] *)
Definition emptyRequiredParams : RequiredParams.t :=
  RequiredParams.mk [] [] [].

(** [r.required_fields.push(n)] and its two siblings. *)
Definition push_required_fields (n : string) (r : RequiredParams.t) :=
  RequiredParams.mk (RequiredParams.required_fields r ++ [n])
                    (RequiredParams.optional_fields r)
                    (RequiredParams.expected_from_user r).

Definition push_optional_fields (n : string) (r : RequiredParams.t) :=
  RequiredParams.mk (RequiredParams.required_fields r)
                    (RequiredParams.optional_fields r ++ [n])
                    (RequiredParams.expected_from_user r).

Definition push_expected_from_user (n : string) (r : RequiredParams.t) :=
  RequiredParams.mk (RequiredParams.required_fields r)
                    (RequiredParams.optional_fields r)
                    (RequiredParams.expected_from_user r ++ [n]).

(** Body of [scheme.fields.forEach((field) => ...)]: every branch reads
    the summary again under [name] in [authSchemesObject] and pushes onto
    one of its arrays. *)
Definition classifyField (name : string)
    (authSchemesObject : JsDict.t) (field : Field.t) : JsDict.t :=
  let isExpectedForIntegrationSetup :=
    Bool.eqb (Field.expected_from_customer field) false in
  let isRequired := Field.required field in
  if isExpectedForIntegrationSetup then
    if isRequired then
      js_alter (push_expected_from_user (Field.name field)) name
        authSchemesObject
    else
      js_alter (push_optional_fields (Field.name field)) name
        authSchemesObject
  else
    js_alter (push_required_fields (Field.name field)) name authSchemesObject.

(** Body of [for (const scheme of authSchemes)]. *)
Definition processScheme (authSchemesObject : JsDict.t)
    (scheme : AuthScheme.t) : JsDict.t :=
  let name := AuthScheme.mode scheme in
  foldl (classifyField name)
        (js_set name emptyRequiredParams authSchemesObject)
        (AuthScheme.fields scheme).

(** The whole loop, starting from [authSchemesObject = {}]. *)
Definition buildAuthSchemesObject (authSchemes : list AuthScheme.t)
    : JsDict.t :=
  foldl processScheme js_empty authSchemes.

(** [authSchemes.map((scheme) => scheme?.mode)] *)
Definition modesOf (authSchemes : list AuthScheme.t) : list string :=
  AuthScheme.mode <$> authSchemes.

(** *** What the loop computes, scheme by scheme *)

(** The same three-way branch on a summary held in hand. *)
Definition bucketField (r : RequiredParams.t) (field : Field.t)
    : RequiredParams.t :=
  if Field.expected_from_customer field then
    push_required_fields (Field.name field) r
  else if Field.required field then
    push_expected_from_user (Field.name field) r
  else
    push_optional_fields (Field.name field) r.

Definition summarize (fields : list Field.t) : RequiredParams.t :=
  foldl bucketField emptyRequiredParams fields.

Definition goes_required (f : Field.t) : bool :=
  Field.expected_from_customer f.
Definition goes_expected (f : Field.t) : bool :=
  negb (Field.expected_from_customer f) && Field.required f.
Definition goes_optional (f : Field.t) : bool :=
  negb (Field.expected_from_customer f) && negb (Field.required f).

Definition names_where (p : Field.t → bool) (fields : list Field.t)
    : list string :=
  Field.name <$> List.filter p fields.

(** ** Data model of connectedAccounts.ts *)

(** [ConnectedAccountResponseDTO], restricted to what is read. *)
Module Connection.
Record t : Type := mk
  { id : string;
    integrationId : string;
    status : string }.
End Connection.

(** Response body of [POST /connections]. *)
Module InitiateConnectionResponse.
Record t : Type := mk
  { connectionStatus : string;
    connectedAccountId : string;
    redirectUrl : js_opt string }.
End InitiateConnectionResponse.

Module Integration.
Record t : Type := mk { id : option string }.
End Integration.

Module AppList.
Record t : Type := mk { items : option (list JsValue) }.
End AppList.

Module GetAppDataParams.
Record t : Type := mk { appKey : string }.
End GetAppDataParams.

Module SingleConnectionParam.
Record t : Type := mk { connectedAccountId : string }.
End SingleConnectionParam.

Module SaveUserAccessDataParam.
Record t : Type := mk
  { fieldInputs : JsValue;
    redirectUrl : option string;
    entityId : option string }.
End SaveUserAccessDataParam.

(** [InitiateConnectionDataReq]: every property is optional. *)
Module InitiateConnectionDataReq.
Record t : Type := mk
  { data : option JsValue;
    entityId : option string;
    labels : option JsValue;
    integrationId : option string;
    redirectUri : option string;
    authMode : option string;
    authConfig : option JsValue;
    appName : option string }.
End InitiateConnectionDataReq.

(** Argument of [Integrations.create]. *)
Module CreateIntegration.
Record t : Type := mk
  { appId : option string;
    name : string;
    authScheme : string;
    authConfig : JsValue;
    useComposioAuth : bool }.
End CreateIntegration.

(** What a call on the generated client resolves to: an object whose
    [data] property holds the body of the answer, if it has one. Its other
    properties ([error], [request], [response]) are not modelled. *)
Module ClientResult.
Record t (A : Type) : Type := mk { data : option A }.
Global Arguments mk {A} data.
Global Arguments data {A} t.
End ClientResult.

(** The three shapes of body handed to [connections.initiateConnection]. *)
Inductive ConnectionBody : Type :=
| BodyPayload (data : JsValue)
| BodyInitiate (integrationId : option string) (entityId : string)
    (labels : option JsValue) (redirectUri : option string) (data : JsValue)
| BodySave (integrationId : string) (data : JsValue)
    (redirectUri : option string) (userUuid entityId : option string).

(** ** Effects *)

(** Calls on the generated client ([apiClient.apps.*],
    [apiClient.connections.*]). *)
Inductive request : Type :=
| getApps
| getApp (appName : string)
| listConnections (query : JsValue)
| initiateConnection (body : ConnectionBody)
| getConnection (connectedAccountId : js_opt string)
| deleteConnection (connectedAccountId : string)
| getConnectionInfo (connectedAccountId : string).

(** Type of the [data] property of the answer to a request. *)
Definition response (r : request) : Type :=
  match r with
  | getApps => AppList.t
  | getApp _ => App.t
  | listConnections _ => JsValue
  | initiateConnection _ => InitiateConnectionResponse.t
  | getConnection _ => Connection.t
  | deleteConnection _ => JsValue
  | getConnectionInfo _ => JsValue
  end.

(** The [params] property of a telemetry event. *)
Inductive params : Type :=
| ParamsNone
| ParamsData (data : JsValue)
| ParamsGetApp (data : GetAppDataParams.t)
| ParamsAppId (appId : string)
| ParamsAppIdAuthScheme (appId authScheme : string)
| ParamsSingle (data : SingleConnectionParam.t)
| ParamsPayload (payload : InitiateConnectionDataReq.t).

(** What a method does to the outside, in the order it does it. *)
Inductive event : Type :=
| EvTelemetry (method file : string) (p : params)
| EvParse (schema : string)
| EvRequest (r : request) (throwOnError : bool)
| EvIntegrationsCreate (arg : CreateIntegration.t)
| EvDateNow
| EvSleep (ms : Z).

(** Values that can be thrown inside a method body. [CE] is the SDK's
    unified error type. *)
Inductive exn (CE : Type) : Type :=
| JsError (message : string)
| JsTypeError (message : string)
| ZodError (issues : JsValue)
| Rejected (reason : JsValue)
| Normalized (e : CE).
Arguments JsError {CE} message.
Arguments JsTypeError {CE} message.
Arguments ZodError {CE} issues.
Arguments Rejected {CE} reason.
Arguments Normalized {CE} e.

(** Outcome of running a method: a value, a thrown error, or a polling loop
    cut off by the bound on its iterations. *)
Inductive res (E A : Type) : Type :=
| Ok (a : A)
| Throw (e : E)
| OutOfFuel.
Arguments Ok {E A} a.
Arguments Throw {E A} e.
Arguments OutOfFuel {E A}.

(** Everything the two files use and do not define. [send r throwOnError]
    answers a request: a rejected promise ([inl]) or a resolved one whose
    [data] may be undefined. Each [*_parse] returns the issues of a failed
    zod parse. *)
Class Platform : Type := {
  World : Type;
  ComposioError : Type;
  handleAllError : exn ComposioError → ComposioError;
  send : ∀ r : request, bool → World → (JsValue + option (response r)) * World;
  integrations_create :
    CreateIntegration.t → World → (ComposioError + option Integration.t) * World;
  date_now : World → Z * World;
  sleep : Z → World → World;
  toISOString : Z → string;
  ZGetRequiredParams_parse : string → option JsValue;
  ZGetRequiredParamsForAuthScheme_parse : string → string → option JsValue;
  ZSingleConnectionParams_parse : SingleConnectionParam.t → option JsValue;
  ZSaveUserAccessDataParam_parse : SaveUserAccessDataParam.t → option JsValue;
}.

Section Monad.
Context `{P : Platform}.

Record Run (A : Type) : Type := mkRun
  { result : res (exn ComposioError) A;
    world : World;
    events : list event }.
Global Arguments mkRun {A} result world events.
Global Arguments result {A} r.
Global Arguments world {A} r.
Global Arguments events {A} r.

Definition M (A : Type) : Type := World → Run A.

Definition ret {A} (a : A) : M A := λ w, mkRun (Ok a) w [].

Definition bind {A B} (m : M A) (k : A → M B) : M B := λ w,
  match m w with
  | mkRun (Ok a) w1 es1 =>
      match k a w1 with
      | mkRun r w2 es2 => mkRun r w2 (es1 ++ es2)
      end
  | mkRun (Throw e) w1 es1 => mkRun (Throw e) w1 es1
  | mkRun OutOfFuel w1 es1 => mkRun OutOfFuel w1 es1
  end.

Definition throw {A} (e : exn ComposioError) : M A := λ w,
  mkRun (Throw e) w [].

Definition out_of_fuel {A} : M A := λ w, mkRun OutOfFuel w [].

Definition emit (e : event) : M unit := λ w, mkRun (Ok tt) w [e].

(** [try { body } catch (error) { throw CEG.handleAllError(error); }] *)
Definition try_catch {A} (body : M A) : M A := λ w,
  match body w with
  | mkRun (Throw e) w1 es =>
      mkRun (Throw (Normalized (handleAllError e))) w1 es
  | r => r
  end.

(** [TELEMETRY_LOGGER.manualTelemetry(TELEMETRY_EVENTS.SDK_METHOD_INVOKED,
    { method, file, params })] *)
Definition manualTelemetry (method file : string) (p : params) : M unit :=
  emit (EvTelemetry method file p).

(** [Schema.parse(x)] *)
Definition parse {A} (schema : string) (validate : A → option JsValue)
    (x : A) : M unit :=
  bind (emit (EvParse schema)) (λ _,
    match validate x with
    | Some issues => throw (ZodError issues)
    | None => ret tt
    end).

(** [await apiClient.<...>({ ..., throwOnError })], then [.data]. *)
Definition call (r : request) (throwOnError : bool)
    : M (option (response r)) := λ w,
  let '(a, w') := send r throwOnError w in
  mkRun (match a with
         | inl reason => Throw (Rejected reason)
         | inr data => Ok data
         end) w' [EvRequest r throwOnError].

(** [await apiClient.<...>({ ..., throwOnError })], kept whole. *)
Definition call_result (r : request) (throwOnError : bool)
    : M (ClientResult.t (response r)) := λ w,
  let '(a, w') := send r throwOnError w in
  mkRun (match a with
         | inl reason => Throw (Rejected reason)
         | inr data => Ok (ClientResult.mk data)
         end) w' [EvRequest r throwOnError].

(** [Date.now()], also the clock read of [new Date()]. *)
Definition now : M Z := λ w,
  let '(t, w') := date_now w in mkRun (Ok t) w' [EvDateNow].

(** [await new Promise((resolve) => setTimeout(resolve, ms))] *)
Definition setTimeout (ms : Z) : M unit := λ w,
  mkRun (Ok tt) (sleep ms w) [EvSleep ms].

(** [await this.integrations.create(arg)] *)
Definition integrationsCreate (arg : CreateIntegration.t)
    : M (option Integration.t) := λ w,
  let '(a, w') := integrations_create arg w in
  mkRun (match a with
         | inl e => Throw (Normalized e)
         | inr i => Ok i
         end) w' [EvIntegrationsCreate arg].

(** The clock as [Date.now()] reads it. *)
Definition time_of (w : World) : Z := fst (date_now w).
End Monad.

Notation "'let*' x ':=' m 'in' k" := (bind m (fun x => k))
  (at level 10, x binder, m at level 100, k at level 200).
Notation "m ;;; k" := (bind m (fun _ => k))
  (at level 100, right associativity).

(** ** apps.ts *)

Module Apps.
Section Methods.
Context `{P : Platform}.

Definition fileName : string := "js/src/sdk/models/apps.ts".

(** [data?.items || []] *)
Definition items_or_empty (data : option AppList.t) : Datatypes.list JsValue :=
  match data with
  | Some d => match AppList.items d with Some l => l | None => [] end
  | None => []
  end.

Definition list : M (Datatypes.list JsValue) :=
  manualTelemetry "list" fileName ParamsNone ;;;
  try_catch (
    let* data := call getApps false in
    ret (items_or_empty data)).

Definition get (data : GetAppDataParams.t) : M App.t :=
  manualTelemetry "get" fileName (ParamsGetApp data) ;;;
  try_catch (
    let* response := call (getApp (GetAppDataParams.appKey data)) false in
    match response with
    | None => throw (JsError "App not found")
    | Some response => ret response
    end).

(** [this.get] resolves to an app object, so the [if (!appData)] test that
    follows it never fires. Iterating an undefined [auth_schemes] with
    [for ... of] makes the runtime throw a TypeError. *)
Definition getRequiredParams (appId : string) : M RequiredParamsFull.t :=
  manualTelemetry "getRequiredParams" fileName (ParamsAppId appId) ;;;
  try_catch (
    parse "ZGetRequiredParams" ZGetRequiredParams_parse appId ;;;
    let* appData := get (GetAppDataParams.mk appId) in
    let authSchemes := App.auth_schemes appData in
    match authSchemes with
    | None => throw (JsTypeError "authSchemes is not iterable")
    | Some authSchemes =>
        let availableAuthSchemes := modesOf authSchemes in
        let authSchemesObject := buildAuthSchemesObject authSchemes in
        ret (RequiredParamsFull.mk availableAuthSchemes authSchemesObject)
    end).

(** The result is the property read [params.authSchemes[authScheme]]. *)
Definition getRequiredParamsForAuthScheme (appId authScheme : string)
    : M prop_value :=
  manualTelemetry "getRequiredParamsForAuthScheme" fileName
    (ParamsAppIdAuthScheme appId authScheme) ;;;
  try_catch (
    parse "ZGetRequiredParamsForAuthScheme"
      (λ '(appId, authScheme),
         ZGetRequiredParamsForAuthScheme_parse appId authScheme)
      (appId, authScheme) ;;;
    let* params := getRequiredParams appId in
    ret (js_get (RequiredParamsFull.authSchemes params) authScheme)).
End Methods.
End Apps.

(** ** connectedAccounts.ts *)

Module ConnectionRequest.
Record t : Type := mk
  { connectionStatus : js_opt string;
    connectedAccountId : js_opt string;
    redirectUrl : js_opt string }.

(** The constructor takes the third property under the name
    [redirectUri]. *)
Definition new (connectionStatus connectedAccountId redirectUri : js_opt string)
    : t :=
  {| connectionStatus := connectionStatus;
     connectedAccountId := connectedAccountId;
     redirectUrl := redirectUri |}.

Section Methods.
Context `{P : Platform}.

(** The method resolves to what the client resolves to, not to its
    [data]. *)
Definition saveUserAccessData (this : t) (data : SaveUserAccessDataParam.t)
    : M (ClientResult.t InitiateConnectionResponse.t) :=
  try_catch (
    parse "ZSaveUserAccessDataParam" ZSaveUserAccessDataParam_parse data ;;;
    let* connectedAccount :=
      call (getConnection (connectedAccountId this)) false in
    match connectedAccount with
    | None => throw (JsError "Connected account not found")
    | Some connectedAccount =>
        let body :=
          BodySave (Connection.integrationId connectedAccount)
                   (SaveUserAccessDataParam.fieldInputs data)
                   (SaveUserAccessDataParam.redirectUrl data)
                   (SaveUserAccessDataParam.entityId data)
                   (SaveUserAccessDataParam.entityId data) in
        (call_result (initiateConnection body) false
           : M (ClientResult.t InitiateConnectionResponse.t))
    end).

Definition getAuthInfo (this : t) (data : SingleConnectionParam.t)
    : M (option JsValue) :=
  try_catch (
    parse "ZSingleConnectionParams" ZSingleConnectionParams_parse data ;;;
    let* res :=
      call (getConnectionInfo (SingleConnectionParam.connectedAccountId data))
           false in
    ret res).

(** The [while] loop of [waitUntilActive]; [fuel] bounds the number of
    times its condition is evaluated. [timeout] is a whole number of
    seconds. *)
Fixpoint waitUntilActive_loop (fuel : nat) (this : t)
    (startTime timeout : Z) : M Connection.t :=
  match fuel with
  | O => out_of_fuel
  | S fuel =>
      let* t := now in
      if t - startTime <? timeout * 1000 then
        let* connection := call (getConnection (connectedAccountId this)) false in
        match connection with
        | None => throw (JsError "Connected account not found")
        | Some connection =>
            if String.eqb (Connection.status connection) "ACTIVE" then
              ret connection
            else
              setTimeout 1000 ;;;
              waitUntilActive_loop fuel this startTime timeout
        end
      else
        throw (JsError
          "Connection did not become active within the timeout period.")
  end.

(** [timeout = 60] when the argument is left out. *)
Definition waitUntilActive (fuel : nat) (this : t) (timeout : option Z)
    : M Connection.t :=
  let timeout := default 60 timeout in
  try_catch (
    let* startTime := now in
    waitUntilActive_loop fuel this startTime timeout).
End Methods.
End ConnectionRequest.

(** [s.replace(/[-:.]/g, "")] *)
Fixpoint strip_separators (s : string) : string :=
  match s with
  | EmptyString => EmptyString
  | String c s' =>
      if (Ascii.eqb c "-"%char || Ascii.eqb c ":"%char || Ascii.eqb c "."%char)%bool
      then strip_separators s'
      else String c (strip_separators s')
  end.

Module ConnectedAccounts.
Section Methods.
Context `{P : Platform}.

Definition fileName : string := "js/src/sdk/models/connectedAccounts.ts".

Definition list (data : JsValue) : M (option JsValue) :=
  manualTelemetry "list" fileName (ParamsData data) ;;;
  try_catch (
    let* res := call (listConnections data) false in
    ret res).

(** Reading [res.connectionStatus] on an undefined [res] makes the runtime
    throw a TypeError. *)
Definition create (data : JsValue) : M ConnectionRequest.t :=
  manualTelemetry "create" fileName (ParamsData data) ;;;
  try_catch (
    let* res := call (initiateConnection (BodyPayload data)) true in
    match res with
    | None =>
        throw (JsTypeError
          "Cannot read properties of undefined (reading 'connectionStatus')")
    | Some res =>
        ret (ConnectionRequest.new
               (JSome (InitiateConnectionResponse.connectionStatus res))
               (JSome (InitiateConnectionResponse.connectedAccountId res))
               (nullish_null (InitiateConnectionResponse.redirectUrl res)))
    end).

Definition get (data : SingleConnectionParam.t) : M (option Connection.t) :=
  manualTelemetry "get" fileName (ParamsSingle data) ;;;
  try_catch (
    parse "ZSingleConnectionParams" ZSingleConnectionParams_parse data ;;;
    let* res :=
      call (getConnection
              (JSome (SingleConnectionParam.connectedAccountId data))) true in
    ret res).

Definition delete (data : SingleConnectionParam.t) : M (option JsValue) :=
  manualTelemetry "delete" fileName (ParamsSingle data) ;;;
  try_catch (
    parse "ZSingleConnectionParams" ZSingleConnectionParams_parse data ;;;
    let* res :=
      call (deleteConnection
              (SingleConnectionParam.connectedAccountId data)) true in
    ret res).

(** [if (!x) throw new Error(message)] on a [string | undefined]; the
    code after it uses [x] as a string. *)
Definition require_str (x : option string) (message : string) : M string :=
  if negb (truthy_str x) then throw (JsError message)
  else ret (default "" x).

(** The same on a value that may be [undefined]: every falsy value
    throws. *)
Definition require_obj (x : option JsValue) (message : string) : M JsValue :=
  if negb (truthy_obj x) then throw (JsError message)
  else ret (default (JsObject []) x).

(** The [try] block of [initiate]. *)
Definition initiate_try (payload : InitiateConnectionDataReq.t)
    : M ConnectionRequest.t :=
  let entityId := default "default" (InitiateConnectionDataReq.entityId payload) in
  let labels := InitiateConnectionDataReq.labels payload in
  let data := default (JsObject []) (InitiateConnectionDataReq.data payload) in
  let redirectUri := InitiateConnectionDataReq.redirectUri payload in
  let authMode := InitiateConnectionDataReq.authMode payload in
  let authConfig := InitiateConnectionDataReq.authConfig payload in
  let appName := InitiateConnectionDataReq.appName payload in
  let integrationId := InitiateConnectionDataReq.integrationId payload in
  let* integrationId :=
    if negb (truthy_str integrationId) && truthy_str authMode then
      let* t := now in
      let timestamp := strip_separators (toISOString t) in
      let* appName :=
        require_str appName
          "appName is required when integrationId is not provided" in
      let* authMode :=
        require_str authMode
          "authMode is required when integrationId is not provided" in
      let* authConfig :=
        require_obj authConfig
          "authConfig is required when integrationId is not provided" in
      let* app := Apps.get (GetAppDataParams.mk appName) in
      let* integration :=
        integrationsCreate
          (CreateIntegration.mk (App.appId app)
                                (String.append "integration_" timestamp)
                                authMode authConfig false) in
      ret (integration ≫= Integration.id)
    else ret integrationId in
  let* res :=
    call (initiateConnection
            (BodyInitiate integrationId entityId labels redirectUri data))
         false in
  ret (ConnectionRequest.new
         (opt_chain InitiateConnectionResponse.connectionStatus res)
         (opt_chain InitiateConnectionResponse.connectedAccountId res)
         (match res with
          | Some res => InitiateConnectionResponse.redirectUrl res
          | None => JUndefined
          end)).

Definition initiate (payload : InitiateConnectionDataReq.t)
    : M ConnectionRequest.t :=
  manualTelemetry "initiate" fileName (ParamsPayload payload) ;;;
  try_catch (initiate_try payload).
End Methods.
End ConnectedAccounts.

(** ** The claims of the specification, as predicates on results *)

(** A field sits in the bucket that its two flags select. *)
Definition field_placed (f : Field.t) (b : RequiredParams.t) : Prop :=
  (Field.expected_from_customer f = false → Field.required f = true →
     Field.name f ∈ RequiredParams.expected_from_user b)
  ∧ (Field.expected_from_customer f = false → Field.required f = false →
     Field.name f ∈ RequiredParams.optional_fields b)
  ∧ (Field.expected_from_customer f = true →
     Field.name f ∈ RequiredParams.required_fields b).

(** The summary returned for a scheme classifies all of its fields. *)
Definition scheme_classified (s : AuthScheme.t) (r : RequiredParamsFull.t)
    : Prop :=
  ∃ b, js_get (RequiredParamsFull.authSchemes r) (AuthScheme.mode s)
       = PSummary b
       ∧ ∀ f, f ∈ AuthScheme.fields s → field_placed f b.

(** A field name occurs in one bucket and in no other. *)
Definition in_exactly_one (n : string) (b : RequiredParams.t) : Prop :=
  let rq := RequiredParams.required_fields b in
  let op := RequiredParams.optional_fields b in
  let ex := RequiredParams.expected_from_user b in
  ((n ∈ rq) ∧ (n ∉ op) ∧ (n ∉ ex))
  ∨ ((n ∉ rq) ∧ (n ∈ op) ∧ (n ∉ ex))
  ∨ ((n ∉ rq) ∧ (n ∉ op) ∧ (n ∈ ex)).

Definition scheme_partitioned (s : AuthScheme.t) (r : RequiredParamsFull.t)
    : Prop :=
  ∃ b, js_get (RequiredParamsFull.authSchemes r) (AuthScheme.mode s)
       = PSummary b
       ∧ ∀ f, f ∈ AuthScheme.fields s → in_exactly_one (Field.name f) b.

(** The telemetry events of a run, and how many of them carry a given
    method and file. *)
Definition is_telemetry_of (method file : string) (e : event) : bool :=
  match e with
  | EvTelemetry m f _ => String.eqb m method && String.eqb f file
  | _ => false
  end.

Definition is_telemetry (e : event) : bool :=
  match e with
  | EvTelemetry _ _ _ => true
  | _ => false
  end.

Definition is_parse (e : event) : bool :=
  match e with
  | EvParse _ => true
  | _ => false
  end.

Definition is_request (e : event) : bool :=
  match e with
  | EvRequest _ _ => true
  | _ => false
  end.

Definition is_sleep (e : event) : bool :=
  match e with
  | EvSleep _ => true
  | _ => false
  end.

Definition count (p : event → bool) (es : list event) : nat :=
  length (List.filter p es).

(** A run opens with the telemetry event of the method and holds no other
    event carrying this method and file. *)
Definition emits_own (method file : string) (p : params) (es : list event)
    : Prop :=
  (∃ rest, es = EvTelemetry method file p :: rest)
  ∧ count (is_telemetry_of method file) es = 1%nat.

(** The message of the error thrown when the polling loop gives up. *)
Definition timeout_message : string :=
  "Connection did not become active within the timeout period.".

(** ** A concrete platform

    The world is the clock in milliseconds. Every request takes 10 ms,
    a sleep takes exactly as long as asked. [GET /apps/{name}] answers from
    a fixed catalog; a connected account is ["ACTIVE"] from the instant
    [activeFrom] on (never, when it is [None]); errors are normalized to
    their message. *)
Module Demo.
Definition find_app (catalog : list App.t) (appName : string)
    : option App.t :=
  List.find (λ a, String.eqb (App.key a) appName) catalog.

Definition status_at (activeFrom : option Z) (t : Z) : string :=
  match activeFrom with
  | Some t0 => if t0 <=? t then "ACTIVE" else "INITIATED"
  | None => "INITIATED"
  end.

Definition initiated : InitiateConnectionResponse.t :=
  InitiateConnectionResponse.mk "INITIATED" "acc_1"
    (JSome "https://backend.example/redirect").

Definition answer (catalog : list App.t) (activeFrom : option Z)
    (r : request) (t : Z) : option (response r) :=
  match r with
  | getApps => Some (AppList.mk (Some []))
  | getApp appName => find_app catalog appName
  | listConnections _ => Some (JsArray [])
  | initiateConnection _ => Some initiated
  | getConnection (JSome i) =>
      Some (Connection.mk i "int_1" (status_at activeFrom t))
  | getConnection _ => None
  | deleteConnection _ => Some (JsObject [("status", JsString "success")])
  | getConnectionInfo _ => Some (JsObject [])
  end.

Definition normalize (e : exn string) : string :=
  match e with
  | JsError m => m
  | JsTypeError m => m
  | ZodError _ => "validation failed"
  | Rejected _ => "request failed"
  | Normalized m => m
  end.

(** The schemas of this platform turn down empty strings. *)
Definition nonempty (field value : string) : option JsValue :=
  if String.eqb value ""
  then Some (JsObject [("path", JsString field);
                       ("message", JsString "must not be empty")])
  else None.

Definition nonempty_id (d : SingleConnectionParam.t) : option JsValue :=
  nonempty "connectedAccountId" (SingleConnectionParam.connectedAccountId d).

Definition nonempty_pair (appId authScheme : string) : option JsValue :=
  match nonempty "appId" appId with
  | Some issues => Some issues
  | None => nonempty "authScheme" authScheme
  end.

Definition nonempty_entity (d : SaveUserAccessDataParam.t)
    : option JsValue :=
  match SaveUserAccessDataParam.entityId d with
  | Some e => nonempty "entityId" e
  | None => None
  end.

Definition platform (catalog : list App.t) (activeFrom : option Z)
    : Platform :=
  {| World := Z;
     ComposioError := string;
     handleAllError := normalize;
     send := λ r _ t, (inr (answer catalog activeFrom r t), t + 10);
     integrations_create := λ _ t,
       (inr (Some (Integration.mk (Some "int_new"))), t + 10);
     date_now := λ t, (t, t);
     sleep := λ ms t, t + ms;
     toISOString := λ _, "2024-05-06T07:08:09.010Z";
     ZGetRequiredParams_parse := nonempty "appId";
     ZGetRequiredParamsForAuthScheme_parse := nonempty_pair;
     ZSingleConnectionParams_parse := nonempty_id;
     ZSaveUserAccessDataParam_parse := nonempty_entity |}.

Definition token_setup : Field.t := Field.mk "token" true false.
Definition token_user : Field.t := Field.mk "token" false true.
Definition subdomain : Field.t := Field.mk "subdomain" false false.
Definition api_key : Field.t := Field.mk "api_key" true true.

(** A well-behaved app, an app whose two schemes share a mode, and an app
    whose scheme lists one field name twice. *)
Definition github : App.t :=
  App.mk (Some "app_github") "github"
    (Some [AuthScheme.mk "OAUTH2" [token_setup; subdomain];
           AuthScheme.mk "API_KEY" [api_key]]).

Definition twin_modes : App.t :=
  App.mk (Some "app_twin") "twin"
    (Some [AuthScheme.mk "OAUTH2" [token_setup];
           AuthScheme.mk "OAUTH2" []]).

Definition twin_names : App.t :=
  App.mk (Some "app_names") "names"
    (Some [AuthScheme.mk "API_KEY" [token_setup; token_user]]).

Definition catalog : list App.t := [github; twin_modes; twin_names].

Definition never_active : Platform := platform catalog None.
Definition active_at (t : Z) : Platform := platform catalog (Some t).

Definition request_1 : ConnectionRequest.t :=
  ConnectionRequest.new (JSome "INITIATED") (JSome "acc_1") JNull.

Definition bare_payload : InitiateConnectionDataReq.t :=
  InitiateConnectionDataReq.mk None None None None None None None
    (Some "github").
End Demo.

(** ** Proof automation for runs *)

(** Unfolds the monad's operations and splits on what the platform
    answers. *)
Ltac run_simpl :=
  cbn in *.

Ltac unfold_run :=
  unfold bind, try_catch, parse, manualTelemetry, call, call_result, now,
    setTimeout,
    integrationsCreate, emit, throw, ret, out_of_fuel in *;
  run_simpl.

(** Splits on every answer of the platform and on every test that the
    computation under [events] is waiting for. *)
Ltac split_run :=
  repeat first
    [ progress run_simpl
    | match goal with
      | |- context [send ?r ?b ?w] => destruct (send r b w) as [[?|[?|]] ?]
      | |- context [integrations_create ?a ?w] =>
          destruct (integrations_create a w) as [[?|?] ?]
      | |- context [date_now ?w] => destruct (date_now w) as [? ?]
      | |- context [match ?x with Some _ => _ | None => _ end] => destruct x
      | |- context [if ?b then _ else _] => destruct b
      end ].

Ltac own_event := split; [eexists; reflexivity | reflexivity].

(** ** Further predicates on runs *)

Definition is_integrations_create (e : event) : bool :=
  match e with
  | EvIntegrationsCreate _ => true
  | _ => false
  end.

(** [c] is one of the characters that [/[-:.]/g] matches. *)
Definition is_separator (c : ascii) : bool :=
  (Ascii.eqb c "-"%char || Ascii.eqb c ":"%char || Ascii.eqb c "."%char)%bool.

(** The only effects of the polling loop of a connection request: a clock
    read, a fetch of its own connected account, a sleep of one second. *)
Definition is_poll_event (this : ConnectionRequest.t) (e : event) : Prop :=
  e = EvDateNow
  ∨ e = EvRequest (getConnection (ConnectionRequest.connectedAccountId this))
          false
  ∨ e = EvSleep 1000.

(** The last scheme of a list that carries the mode [m]. *)
Fixpoint last_with_mode (m : string) (schemes : list AuthScheme.t)
    : option AuthScheme.t :=
  match schemes with
  | [] => None
  | s :: schemes =>
      match last_with_mode m schemes with
      | Some s' => Some s'
      | None => if String.eqb (AuthScheme.mode s) m then Some s else None
      end
  end.

(** The summary of a scheme, read off the flags of its fields. *)
Definition summary_by_flags (s : AuthScheme.t) : RequiredParams.t :=
  RequiredParams.mk
    (Field.name <$>
       List.filter (λ f, Field.expected_from_customer f)
         (AuthScheme.fields s))
    (Field.name <$>
       List.filter
         (λ f, negb (Field.expected_from_customer f)
               && negb (Field.required f))
         (AuthScheme.fields s))
    (Field.name <$>
       List.filter
         (λ f, negb (Field.expected_from_customer f) && Field.required f)
         (AuthScheme.fields s)).

(** Whatever the run throws came out of [CEG.handleAllError]. *)
Definition throws_normalized `{P : Platform} {A} (r : Run A) : Prop :=
  ∀ e, result r = Throw e → ∃ e0, e = Normalized (handleAllError e0).

(** ** Scripted platforms

    The clock and the schemas of [Demo]; the backend answers every request
    through [reply], and [Integrations.create] resolves to [integration]. *)
Module Script.
Definition platform
    (reply : ∀ r : request, Z → JsValue + option (response r))
    (integration : option Integration.t) : Platform :=
  {| World := Z;
     ComposioError := string;
     handleAllError := Demo.normalize;
     send := λ r _ t, (reply r t, t + 10);
     integrations_create := λ _ t, (inr integration, t + 10);
     date_now := λ t, (t, t);
     sleep := λ ms t, t + ms;
     toISOString := λ _, "2024-05-06T07:08:09.010Z";
     ZGetRequiredParams_parse := Demo.nonempty "appId";
     ZGetRequiredParamsForAuthScheme_parse := Demo.nonempty_pair;
     ZSingleConnectionParams_parse := Demo.nonempty_id;
     ZSaveUserAccessDataParam_parse := Demo.nonempty_entity |}.

(** Every request resolves without a body. *)
Definition no_data (r : request) (t : Z) : JsValue + option (response r) :=
  inr None.

(** Every request is rejected. *)
Definition unavailable (r : request) (t : Z)
    : JsValue + option (response r) :=
  inl (JsString "503").

(** The catalog knows an app that has no [auth_schemes] property. *)
Definition bare_app : App.t := App.mk (Some "app_bare") "bare" None.

Definition with_bare_app (r : request) (t : Z)
    : JsValue + option (response r) :=
  match r with
  | getApp _ => inr (Some bare_app)
  | _ => inr None
  end.

(** The catalog knows an app one of whose schemes has the mode
    ["__proto__"]. *)
Definition proto_app : App.t :=
  App.mk (Some "app_proto") "proto"
    (Some [AuthScheme.mk "__proto__" [Demo.token_setup];
           AuthScheme.mk "API_KEY" [Demo.api_key]]).

Definition with_proto_app (r : request) (t : Z)
    : JsValue + option (response r) :=
  match r with
  | getApp _ => inr (Some proto_app)
  | _ => inr None
  end.

Definition silent : Platform := platform no_data None.
Definition prototyped : Platform := platform with_proto_app None.
Definition down : Platform := platform unavailable None.
Definition bare : Platform := platform with_bare_app None.
End Script.

(** Checks a trace of the polling loop event by event. *)
Ltac poll_events :=
  repeat (apply Forall_cons; split;
          [first [by left | by right; left | by right; right]|]);
  first [apply Forall_nil | assumption].

Ltac poll_counts :=
  split; [poll_events|];
  split; [lia|];
  split; intros; first [discriminate | lia].

(** * Properties *)

(** ** The dictionary object *)

Lemma js_get_set_eq k v d : js_get (js_set k v d) k = PSummary v.
Proof.
  unfold js_get, js_set, js_inherited.
  destruct (String.eqb k "__proto__") eqn:Hk; cbn; rewrite ?Hk; [done|].
  by rewrite lookup_insert_eq.
Qed.

(** Assigning under one key leaves the summaries read under the others. *)
Lemma js_get_set_ne k k' v d b :
  k ≠ k' →
  js_get d k' = PSummary b → js_get (js_set k v d) k' = PSummary b.
Proof.
  intros Hne. unfold js_get, js_set, js_inherited.
  destruct (String.eqb k "__proto__") eqn:Hk;
    destruct (String.eqb k' "__proto__") eqn:Hk'; cbn; rewrite ?Hk'.
  - apply String.eqb_eq in Hk, Hk'. congruence.
  - destruct (JsDict.own d !! k'); [done|].
    destruct (JsDict.proto d ≫= _); [done|]. by case_bool_decide.
  - done.
  - rewrite lookup_insert_ne by done. destruct (JsDict.own d !! k'); [done|].
    destruct (JsDict.proto d ≫= _); [done|]. by case_bool_decide.
Qed.

(** ** The classification loop *)

Lemma classifyField_set name obj r field :
  classifyField name (js_set name r obj) field
  = js_set name (bucketField r field) obj.
Proof.
  unfold classifyField, bucketField, js_alter, js_set.
  destruct (String.eqb name "__proto__");
    destruct (Field.expected_from_customer field), (Field.required field);
    cbn; try done; by rewrite alter_insert_eq.
Qed.

Lemma foldl_classifyField name fields : ∀ obj r,
  foldl (classifyField name) (js_set name r obj) fields
  = js_set name (foldl bucketField r fields) obj.
Proof.
  induction fields as [|f fs IH]; intros obj r; simpl; [done|].
  by rewrite classifyField_set, IH.
Qed.

Lemma processScheme_set obj scheme :
  processScheme obj scheme
  = js_set (AuthScheme.mode scheme) (summarize (AuthScheme.fields scheme)) obj.
Proof. unfold processScheme, summarize. apply foldl_classifyField. Qed.

Lemma foldl_bucketField fields : ∀ r,
  foldl bucketField r fields
  = RequiredParams.mk
      (RequiredParams.required_fields r ++ names_where goes_required fields)
      (RequiredParams.optional_fields r ++ names_where goes_optional fields)
      (RequiredParams.expected_from_user r ++ names_where goes_expected fields).
Proof.
  unfold names_where, goes_required, goes_optional, goes_expected.
  induction fields as [|f fs IH]; intros [rq op ex]; simpl.
  - by rewrite !app_nil_r.
  - rewrite IH. unfold bucketField.
    destruct (Field.expected_from_customer f), (Field.required f); simpl;
      by rewrite <- ?app_assoc.
Qed.

Lemma summarize_buckets fields :
  summarize fields
  = RequiredParams.mk (names_where goes_required fields)
                      (names_where goes_optional fields)
                      (names_where goes_expected fields).
Proof. unfold summarize. by rewrite foldl_bucketField. Qed.

(** After the loop, the summary read under a mode is that of the last
    scheme that carries this mode. *)
Lemma buildAuthSchemesObject_app pre post :
  buildAuthSchemesObject (pre ++ post)
  = foldl processScheme (buildAuthSchemesObject pre) post.
Proof. unfold buildAuthSchemesObject. apply foldl_app. Qed.

Lemma foldl_processScheme_other m b post : ∀ obj,
  m ∉ modesOf post →
  js_get obj m = PSummary b →
  js_get (foldl processScheme obj post) m = PSummary b.
Proof.
  unfold modesOf.
  induction post as [|s post IH]; intros obj Hm Hget; simpl; [done|].
  rewrite fmap_cons, not_elem_of_cons in Hm. destruct Hm as [Hne Hm].
  apply IH; [done|]. rewrite processScheme_set.
  by apply js_get_set_ne.
Qed.

Lemma buildAuthSchemesObject_last pre s post :
  AuthScheme.mode s ∉ modesOf post →
  js_get (buildAuthSchemesObject (pre ++ s :: post)) (AuthScheme.mode s)
  = PSummary (summarize (AuthScheme.fields s)).
Proof.
  intros Hm. rewrite buildAuthSchemesObject_app. simpl.
  apply foldl_processScheme_other; [done|].
  rewrite processScheme_set. apply js_get_set_eq.
Qed.

Lemma elem_of_names_where p fields n :
  n ∈ names_where p fields ↔ ∃ f, f ∈ fields ∧ p f = true ∧ Field.name f = n.
Proof.
  unfold names_where. rewrite list_elem_of_fmap. split.
  - intros (f & -> & Hf). apply list_elem_of_In, filter_In in Hf as [Hf Hp].
    exists f. by rewrite list_elem_of_In.
  - intros (f & Hf & Hp & <-). exists f. split; [done|].
    apply list_elem_of_In, filter_In. by rewrite <- list_elem_of_In.
Qed.

(** The own properties and the prototype after the loop. *)
Lemma foldl_processScheme_own m schemes : ∀ obj,
  m ≠ "__proto__" →
  JsDict.own (foldl processScheme obj schemes) !! m
  = match last_with_mode m schemes with
    | Some s => Some (summarize (AuthScheme.fields s))
    | None => JsDict.own obj !! m
    end.
Proof.
  induction schemes as [|s schemes IH]; intros obj Hm;
    cbn [foldl last_with_mode]; [done|].
  rewrite IH by done. destruct (last_with_mode m schemes); [done|].
  rewrite processScheme_set. unfold js_set.
  destruct (String.eqb (AuthScheme.mode s) m) eqn:Hs.
  - apply String.eqb_eq in Hs as ->. apply String.eqb_neq in Hm.
    rewrite Hm. cbn. apply lookup_insert_eq.
  - apply String.eqb_neq in Hs.
    destruct (String.eqb (AuthScheme.mode s) "__proto__"); cbn; [done|].
    by apply lookup_insert_ne.
Qed.

Lemma foldl_processScheme_proto schemes : ∀ obj,
  JsDict.proto (foldl processScheme obj schemes)
  = match last_with_mode "__proto__" schemes with
    | Some s => Some (summarize (AuthScheme.fields s))
    | None => JsDict.proto obj
    end.
Proof.
  induction schemes as [|s schemes IH]; intros obj;
    cbn [foldl last_with_mode]; [done|].
  rewrite IH. destruct (last_with_mode "__proto__" schemes); [done|].
  rewrite processScheme_set. unfold js_set.
  by destruct (String.eqb (AuthScheme.mode s) "__proto__").
Qed.

Lemma js_get_buildAuthSchemesObject schemes m :
  js_get (buildAuthSchemesObject schemes) m
  = match last_with_mode m schemes with
    | Some s => PSummary (summarize (AuthScheme.fields s))
    | None =>
        js_inherited
          ((λ s, summarize (AuthScheme.fields s))
             <$> last_with_mode "__proto__" schemes) m
    end.
Proof.
  unfold buildAuthSchemesObject, js_get.
  rewrite foldl_processScheme_proto. cbn [JsDict.proto js_empty].
  destruct (String.eqb m "__proto__") eqn:Hm.
  - apply String.eqb_eq in Hm as ->. unfold js_inherited. cbn.
    by destruct (last_with_mode "__proto__" schemes).
  - apply String.eqb_neq in Hm. rewrite foldl_processScheme_own by done.
    cbn [JsDict.own js_empty]. rewrite lookup_empty.
    destruct (last_with_mode m schemes); [done|].
    by destruct (last_with_mode "__proto__" schemes).
Qed.

Lemma last_with_mode_is_Some m schemes :
  is_Some (last_with_mode m schemes) ↔ m ∈ modesOf schemes.
Proof.
  unfold modesOf. induction schemes as [|s schemes IH]; cbn [last_with_mode].
  - rewrite fmap_nil, elem_of_nil. split; [by intros [? ?]|done].
  - rewrite fmap_cons, elem_of_cons, <- IH.
    destruct (last_with_mode m schemes) as [s'|].
    + split; [intros _; right|]; by eexists.
    + destruct (String.eqb (AuthScheme.mode s) m) eqn:Hs.
      * apply String.eqb_eq in Hs. split; [auto|]. by eexists.
      * apply String.eqb_neq in Hs. split; [by intros [? ?]|].
        intros [?|[? ?]]; congruence.
Qed.

(** ** Running the monad *)

Section RunLemmas.
Context `{P : Platform}.

Lemma try_catch_events {A} (body : M A) w :
  events (try_catch body w) = events (body w).
Proof. unfold try_catch. by destruct (body w) as [[?|?|] ? ?]. Qed.

Lemma try_catch_Ok {A} (body : M A) w a :
  result (try_catch body w) = Ok a ↔ result (body w) = Ok a.
Proof. unfold try_catch. by destruct (body w) as [[?|?|] ? ?]. Qed.
End RunLemmas.

(** ** [Apps.getRequiredParams] *)

Section AppsProperties.
Context `{P : Platform}.

(** When the schema accepts the id and the backend knows the app, the
    method returns the two derived tables. *)
Lemma getRequiredParams_returns appId w app w' schemes :
  ZGetRequiredParams_parse appId = None →
  send (getApp appId) false w = (inr (Some app), w') →
  App.auth_schemes app = Some schemes →
  result (Apps.getRequiredParams appId w)
  = Ok (RequiredParamsFull.mk (modesOf schemes)
                              (buildAuthSchemesObject schemes)).
Proof.
  intros Hparse Hsend Hschemes.
  unfold Apps.getRequiredParams, Apps.get. unfold_run.
  rewrite Hparse. run_simpl. rewrite Hsend. run_simpl.
  by rewrite Hschemes.
Qed.

Lemma names_agree (fields : list Field.t) f f' :
  NoDup (Field.name <$> fields) →
  f ∈ fields → f' ∈ fields → Field.name f = Field.name f' → f = f'.
Proof.
  induction fields as [|g gs IH]; intros Hnd Hf Hf' Hn.
  - by apply elem_of_nil in Hf.
  - rewrite fmap_cons in Hnd. apply NoDup_cons in Hnd as [Hg Hnd].
    apply elem_of_cons in Hf as [->|Hf];
      apply elem_of_cons in Hf' as [->|Hf']; try done.
    + exfalso. apply Hg. rewrite Hn. by apply list_elem_of_fmap_2.
    + exfalso. apply Hg. rewrite <- Hn. by apply list_elem_of_fmap_2.
    + by apply IH.
Qed.

Lemma summarize_places fields f :
  f ∈ fields → field_placed f (summarize fields).
Proof.
  intros Hf. rewrite summarize_buckets. unfold field_placed. simpl.
  unfold goes_expected, goes_optional, goes_required.
  repeat split; intros; apply elem_of_names_where; exists f;
    (split; [done|split; [|done]]).
  - by rewrite H, H0.
  - by rewrite H, H0.
  - done.
Qed.

Lemma summarize_partitions fields f :
  NoDup (Field.name <$> fields) →
  f ∈ fields → in_exactly_one (Field.name f) (summarize fields).
Proof.
  intros Hnd Hf. rewrite summarize_buckets. unfold in_exactly_one. simpl.
  unfold not.
  assert (Hiff : ∀ p, Field.name f ∈ names_where p fields ↔ p f = true).
  { intros p. rewrite elem_of_names_where. split.
    - intros (f' & Hf' & Hp & Hn).
      by rewrite (names_agree fields f f' Hnd Hf Hf' (eq_sym Hn)).
    - intros Hp. by exists f. }
  rewrite !Hiff. unfold goes_expected, goes_optional, goes_required.
  destruct (Field.expected_from_customer f), (Field.required f); simpl;
    [left|left|right;right|right;left]; repeat split; congruence.
Qed.

(** C2 (amended). For an app the backend returns, and every auth scheme
    of it that no later scheme of the app shares its mode with (every
    scheme, when the modes are distinct), the summary returned under the
    scheme's mode holds each field of the scheme in the bucket its flags
    select: not expected from the customer and required in
    [expected_from_user], not expected from the customer and not required
    in [optional_fields], expected from the customer in
    [required_fields]. *)
Theorem getRequiredParams_classifies_last_of_mode
    appId w app w' pre s post :
  ZGetRequiredParams_parse appId = None →
  send (getApp appId) false w = (inr (Some app), w') →
  App.auth_schemes app = Some (pre ++ s :: post) →
  AuthScheme.mode s ∉ modesOf post →
  ∃ r, result (Apps.getRequiredParams appId w) = Ok r
       ∧ scheme_classified s r.
Proof.
  intros Hparse Hsend Hschemes Hlast.
  eexists. split.
  - by eapply getRequiredParams_returns.
  - exists (summarize (AuthScheme.fields s)). simpl. split.
    + by apply buildAuthSchemesObject_last.
    + intros f Hf. by apply summarize_places.
Qed.

(** C5 (amended). For an app the backend returns, and every auth scheme
    of it whose field names are pairwise distinct and whose mode no later
    scheme of the app shares, every field of the scheme appears in exactly
    one of the buckets [required_fields], [optional_fields],
    [expected_from_user] of the summary returned under the scheme's
    mode. *)
Theorem getRequiredParams_buckets_exclusive
    appId w app w' pre s post :
  ZGetRequiredParams_parse appId = None →
  send (getApp appId) false w = (inr (Some app), w') →
  App.auth_schemes app = Some (pre ++ s :: post) →
  AuthScheme.mode s ∉ modesOf post →
  NoDup (Field.name <$> AuthScheme.fields s) →
  ∃ r, result (Apps.getRequiredParams appId w) = Ok r
       ∧ scheme_partitioned s r.
Proof.
  intros Hparse Hsend Hschemes Hlast Hnd.
  eexists. split.
  - by eapply getRequiredParams_returns.
  - exists (summarize (AuthScheme.fields s)). simpl. split.
    + by apply buildAuthSchemesObject_last.
    + intros f Hf. by apply summarize_partitions.
Qed.
End AppsProperties.

Lemma getRequiredParams_classifies_last_of_mode_witness :
  ∃ r, result (Apps.getRequiredParams (P := Demo.never_active) "github" 0) = Ok r
       ∧ scheme_classified
           (AuthScheme.mk "OAUTH2" [Demo.token_setup; Demo.subdomain]) r.
Proof.
  apply (getRequiredParams_classifies_last_of_mode (P := Demo.never_active)
           "github" 0 Demo.github 10 []
           (AuthScheme.mk "OAUTH2" [Demo.token_setup; Demo.subdomain])
           [AuthScheme.mk "API_KEY" [Demo.api_key]]).
  - reflexivity.
  - reflexivity.
  - reflexivity.
  - simpl. intros H. apply list_elem_of_singleton in H. discriminate H.
Defined.

Lemma getRequiredParams_buckets_exclusive_witness :
  ∃ r, result (Apps.getRequiredParams (P := Demo.never_active) "github" 0) = Ok r
       ∧ scheme_partitioned
           (AuthScheme.mk "OAUTH2" [Demo.token_setup; Demo.subdomain]) r.
Proof.
  apply (getRequiredParams_buckets_exclusive (P := Demo.never_active)
           "github" 0 Demo.github 10 []
           (AuthScheme.mk "OAUTH2" [Demo.token_setup; Demo.subdomain])
           [AuthScheme.mk "API_KEY" [Demo.api_key]]).
  - reflexivity.
  - reflexivity.
  - reflexivity.
  - simpl. intros H. apply list_elem_of_singleton in H. discriminate H.
  - simpl. apply NoDup_cons. split.
    + intros H. apply list_elem_of_singleton in H. discriminate H.
    + apply NoDup_singleton.
Defined.

(** C2, as stated, fails on an app whose schemes share a mode: the assignment
    [authSchemesObject[name] = {...}] made for the second scheme replaces the
    summary of the first, whose required setup field ["token"] is then in no
    bucket of the result. *)
Lemma getRequiredParams_twin_modes_unclassified :
  @send Demo.never_active (getApp "twin") false 0
  = (inr (Some Demo.twin_modes), 10)
  ∧ App.auth_schemes Demo.twin_modes
    = Some [AuthScheme.mk "OAUTH2" [Demo.token_setup];
            AuthScheme.mk "OAUTH2" []]
  ∧ Field.expected_from_customer Demo.token_setup = false
  ∧ Field.required Demo.token_setup = true
  ∧ result (Apps.getRequiredParams (P := Demo.never_active) "twin" 0)
    = Ok (RequiredParamsFull.mk ["OAUTH2"; "OAUTH2"]
            (JsDict.mk {["OAUTH2" := emptyRequiredParams]} None))
  ∧ ¬ scheme_classified (AuthScheme.mk "OAUTH2" [Demo.token_setup])
        (RequiredParamsFull.mk ["OAUTH2"; "OAUTH2"]
           (JsDict.mk {["OAUTH2" := emptyRequiredParams]} None)).
Proof.
  repeat split.
  unfold scheme_classified. intros (b & Hb & Hplaced). vm_compute in Hb. injection Hb as <-.
  destruct (Hplaced Demo.token_setup) as (Hexp & _).
  { apply list_elem_of_singleton. reflexivity. }
  specialize (Hexp eq_refl eq_refl). simpl in Hexp.
  by apply elem_of_nil in Hexp.
Qed.

(** C5, as stated, fails on a scheme that lists one field name twice with
    different flags: ["token"] lands in [expected_from_user] and in
    [required_fields]. *)
Lemma getRequiredParams_twin_names_overlap :
  @send Demo.never_active (getApp "names") false 0
  = (inr (Some Demo.twin_names), 10)
  ∧ App.auth_schemes Demo.twin_names
    = Some [AuthScheme.mk "API_KEY" [Demo.token_setup; Demo.token_user]]
  ∧ result (Apps.getRequiredParams (P := Demo.never_active) "names" 0)
    = Ok (RequiredParamsFull.mk ["API_KEY"]
            (JsDict.mk
               {["API_KEY" := RequiredParams.mk ["token"] [] ["token"]]} None))
  ∧ ¬ scheme_partitioned
        (AuthScheme.mk "API_KEY" [Demo.token_setup; Demo.token_user])
        (RequiredParamsFull.mk ["API_KEY"]
           (JsDict.mk
              {["API_KEY" := RequiredParams.mk ["token"] [] ["token"]]} None)).
Proof.
  repeat split.
  unfold scheme_partitioned. intros (b & Hb & Hone). vm_compute in Hb. injection Hb as <-.
  destruct (Hone Demo.token_setup) as [H|[H|H]].
  { apply elem_of_cons. by left. }
  all: simpl in H; destruct H as (H1 & H2 & H3).
  - apply H3. apply list_elem_of_singleton. reflexivity.
  - apply H1. apply list_elem_of_singleton. reflexivity.
  - apply H1. apply list_elem_of_singleton. reflexivity.
Qed.

(** ** [Apps.getRequiredParamsForAuthScheme] *)

Section ForAuthScheme.
Context `{P : Platform}.

Lemma getRequiredParamsForAuthScheme_result appId authScheme w :
  ZGetRequiredParamsForAuthScheme_parse appId authScheme = None →
  result (Apps.getRequiredParamsForAuthScheme appId authScheme w)
  = match result (Apps.getRequiredParams appId w) with
    | Ok r => Ok (js_get (RequiredParamsFull.authSchemes r) authScheme)
    | Throw e => Throw (Normalized (handleAllError e))
    | OutOfFuel => OutOfFuel
    end.
Proof.
  intros Hparse. unfold Apps.getRequiredParamsForAuthScheme.
  generalize (Apps.getRequiredParams appId). intros g.
  unfold_run. rewrite Hparse. run_simpl.
  by destruct (g w) as [[r|e|] w1 es].
Qed.

(** A name that is no own key, no property of [Object.prototype] and no
    property of a summary installed as prototype reads as [undefined]. *)
Lemma js_get_undefined d k :
  k ∉ dom (JsDict.own d) →
  k ∉ object_prototype_names →
  JsDict.proto d = None
  ∨ k ∉ ["required_fields"; "optional_fields"; "expected_from_user"] →
  js_get d k = PUndefined.
Proof.
  intros Hown Hnames Hproto. apply not_elem_of_dom in Hown.
  unfold object_prototype_names in Hnames.
  apply not_elem_of_cons in Hnames as [Hk Hfun].
  apply String.eqb_neq in Hk.
  unfold js_get, js_inherited. rewrite Hk, Hown.
  assert (JsDict.proto d ≫= (λ r, summary_property r k) = None) as ->.
  { destruct Hproto as [->|Hbucket]; [done|].
    destruct (JsDict.proto d) as [r|]; [|done]. cbn.
    unfold summary_property.
    rewrite !not_elem_of_cons in Hbucket.
    destruct Hbucket as (H1 & H2 & H3 & _).
    apply String.eqb_neq in H1, H2, H3. by rewrite H1, H2, H3. }
  by rewrite bool_decide_eq_false_2.
Qed.

(** C8 (amended). When the schema accepts the arguments and
    [getRequiredParams(appId)] returns [r],
    [getRequiredParamsForAuthScheme(appId, authScheme)] returns exactly
    the property read [r.authSchemes[authScheme]] and raises no not-found
    error. When [authScheme] is not a key of that mapping, is not a
    property name of [Object.prototype], and either no scheme of mode
    ["__proto__"] has installed a summary as prototype or [authScheme] is
    none of the three property names of a summary, that read is
    [undefined]. *)
Theorem getRequiredParamsForAuthScheme_indexes appId authScheme w r :
  ZGetRequiredParamsForAuthScheme_parse appId authScheme = None →
  result (Apps.getRequiredParams appId w) = Ok r →
  result (Apps.getRequiredParamsForAuthScheme appId authScheme w)
  = Ok (js_get (RequiredParamsFull.authSchemes r) authScheme)
  ∧ (authScheme ∉ dom (JsDict.own (RequiredParamsFull.authSchemes r)) →
     authScheme ∉ object_prototype_names →
     JsDict.proto (RequiredParamsFull.authSchemes r) = None
     ∨ authScheme
       ∉ ["required_fields"; "optional_fields"; "expected_from_user"] →
     result (Apps.getRequiredParamsForAuthScheme appId authScheme w)
     = Ok PUndefined).
Proof.
  intros Hparse Hr.
  rewrite getRequiredParamsForAuthScheme_result, Hr by done.
  split; [done|]. intros Hown Hnames Hproto.
  by rewrite js_get_undefined.
Qed.

(** Nothing but the property read is returned: a value comes back only
    when [getRequiredParams] produced the mapping it was read from. *)
Lemma getRequiredParamsForAuthScheme_only_indexes appId authScheme w v :
  ZGetRequiredParamsForAuthScheme_parse appId authScheme = None →
  result (Apps.getRequiredParamsForAuthScheme appId authScheme w) = Ok v →
  ∃ r, result (Apps.getRequiredParams appId w) = Ok r
       ∧ v = js_get (RequiredParamsFull.authSchemes r) authScheme.
Proof.
  intros Hparse. rewrite getRequiredParamsForAuthScheme_result by done.
  destruct (result (Apps.getRequiredParams appId w)) as [r| |]; [|done..].
  intros [= <-]. by exists r.
Qed.
End ForAuthScheme.

Lemma getRequiredParamsForAuthScheme_indexes_witness :
  result (Apps.getRequiredParamsForAuthScheme (P := Demo.never_active)
            "github" "API_KEY" 0)
  = Ok (PSummary (RequiredParams.mk ["api_key"] [] []))
  ∧ result (Apps.getRequiredParamsForAuthScheme (P := Demo.never_active)
              "github" "BASIC" 0)
    = Ok PUndefined.
Proof.
  split.
  - apply (getRequiredParamsForAuthScheme_indexes (P := Demo.never_active)
             "github" "API_KEY" 0
             (RequiredParamsFull.mk ["OAUTH2"; "API_KEY"]
                (buildAuthSchemesObject
                   [AuthScheme.mk "OAUTH2" [Demo.token_setup; Demo.subdomain];
                    AuthScheme.mk "API_KEY" [Demo.api_key]])));
      reflexivity.
  - apply (getRequiredParamsForAuthScheme_indexes (P := Demo.never_active)
             "github" "BASIC" 0
             (RequiredParamsFull.mk ["OAUTH2"; "API_KEY"]
                (buildAuthSchemesObject
                   [AuthScheme.mk "OAUTH2" [Demo.token_setup; Demo.subdomain];
                    AuthScheme.mk "API_KEY" [Demo.api_key]])));
      [reflexivity | reflexivity | | |].
    + apply not_elem_of_dom. reflexivity.
    + apply (bool_decide_eq_false_1 ("BASIC" ∈ object_prototype_names)).
      reflexivity.
    + left. reflexivity.
Defined.

(** C8, as stated, fails on a name that [Object.prototype] defines: no
    scheme of the app has the mode ["constructor"], so the mapping has no
    such key, and yet the property read, and with it the method, yields the
    inherited constructor function rather than [undefined]. *)
Lemma getRequiredParamsForAuthScheme_inherits_constructor :
  ∃ r,
    result (Apps.getRequiredParams (P := Demo.never_active) "github" 0) = Ok r
    ∧ ("constructor" ∉ dom (JsDict.own (RequiredParamsFull.authSchemes r)))
    ∧ result (Apps.getRequiredParamsForAuthScheme (P := Demo.never_active)
                "github" "constructor" 0)
      = Ok (PBuiltin "constructor")
    ∧ PBuiltin "constructor" ≠ PUndefined.
Proof.
  eexists. split; [reflexivity|]. split; [|split; [reflexivity|discriminate]].
  apply not_elem_of_dom. reflexivity.
Qed.

(** ** [ConnectedAccounts.create] *)

Section Create.
Context `{P : Platform}.

(** A resolved request with a body makes [create] return. *)
Lemma create_returns data w res w' :
  send (initiateConnection (BodyPayload data)) true w = (inr (Some res), w') →
  result (ConnectedAccounts.create data w)
  = Ok (ConnectionRequest.mk
          (JSome (InitiateConnectionResponse.connectionStatus res))
          (JSome (InitiateConnectionResponse.connectedAccountId res))
          (match InitiateConnectionResponse.redirectUrl res with
           | JSome u => JSome u
           | JNull | JUndefined => JNull
           end)).
Proof.
  intros Hsend. unfold ConnectedAccounts.create. unfold_run.
  rewrite Hsend. simpl. unfold ConnectionRequest.new, nullish_null.
  by destruct (InitiateConnectionResponse.redirectUrl res).
Qed.

(** C7. Whenever [create] returns a [ConnectionRequest], the backend
    answered the initiate-connection request with a response whose
    [connectionStatus], [connectedAccountId] and [redirectUrl] are the
    three properties of the request object, [redirectUrl] being [null]
    when the response has none. *)
Theorem create_maps_response data w cr :
  result (ConnectedAccounts.create data w) = Ok cr →
  ∃ res,
    fst (send (initiateConnection (BodyPayload data)) true w) = inr (Some res)
    ∧ ConnectionRequest.connectionStatus cr
      = JSome (InitiateConnectionResponse.connectionStatus res)
    ∧ ConnectionRequest.connectedAccountId cr
      = JSome (InitiateConnectionResponse.connectedAccountId res)
    ∧ ConnectionRequest.redirectUrl cr
      = match InitiateConnectionResponse.redirectUrl res with
        | JSome u => JSome u
        | JNull | JUndefined => JNull
        end.
Proof.
  unfold ConnectedAccounts.create. unfold_run.
  destruct (send (initiateConnection (BodyPayload data)) true w)
    as [[reason|[res|]] w'] eqn:Hsend; simpl; intros Hcr; try discriminate.
  injection Hcr as <-. exists res. simpl. unfold nullish_null.
  by repeat split.
Qed.
End Create.

Lemma create_maps_response_witness :
  result (ConnectedAccounts.create (P := Demo.never_active) (JsObject []) 0)
  = Ok (ConnectionRequest.mk (JSome "INITIATED") (JSome "acc_1")
          (JSome "https://backend.example/redirect"))
  ∧ ∃ res,
      fst (@send Demo.never_active
             (initiateConnection (BodyPayload (JsObject []))) true 0)
      = inr (Some res)
      ∧ JSome "INITIATED"
        = JSome (InitiateConnectionResponse.connectionStatus res)
      ∧ JSome "acc_1"
        = JSome (InitiateConnectionResponse.connectedAccountId res)
      ∧ JSome "https://backend.example/redirect"
        = match InitiateConnectionResponse.redirectUrl res with
          | JSome u => JSome u
          | JNull | JUndefined => JNull
          end.
Proof.
  split; [reflexivity|].
  apply (create_maps_response (P := Demo.never_active) (JsObject []) 0
           (ConnectionRequest.mk (JSome "INITIATED") (JSome "acc_1")
              (JSome "https://backend.example/redirect"))).
  reflexivity.
Defined.

(** ** [ConnectedAccounts.initiate] *)

Section Initiate.
Context `{P : Platform}.

(** With neither [integrationId] nor [authMode] the guard
    [!integrationId && authMode] is false: the block holding the three
    missing-field checks is skipped and the initiate-connection request is
    sent with an undefined [integrationId]. *)
Lemma initiate_without_authMode payload w :
  truthy_str (InitiateConnectionDataReq.integrationId payload) = false →
  truthy_str (InitiateConnectionDataReq.authMode payload) = false →
  events (ConnectedAccounts.initiate payload w)
  = [EvTelemetry "initiate" ConnectedAccounts.fileName (ParamsPayload payload);
     EvRequest
       (initiateConnection
          (BodyInitiate
             (InitiateConnectionDataReq.integrationId payload)
             (default "default" (InitiateConnectionDataReq.entityId payload))
             (InitiateConnectionDataReq.labels payload)
             (InitiateConnectionDataReq.redirectUri payload)
             (default (JsObject []) (InitiateConnectionDataReq.data payload))))
       false].
Proof.
  intros Hid Hmode.
  unfold ConnectedAccounts.initiate, ConnectedAccounts.initiate_try.
  rewrite Hid, Hmode. unfold_run.
  by destruct (send _ false w) as [[?|[?|]] ?].
Qed.

Lemma require_str_Throw x message w e :
  result (ConnectedAccounts.require_str x message w) = Throw e →
  truthy_str x = false ∧ e = JsError message.
Proof.
  unfold ConnectedAccounts.require_str.
  destruct (truthy_str x); simpl; [done|]. by intros [= <-].
Qed.

Lemma require_str_true x message w :
  truthy_str x = true →
  ConnectedAccounts.require_str x message w = mkRun (Ok (default "" x)) w [].
Proof. unfold ConnectedAccounts.require_str. by intros ->. Qed.

(** The check on [authMode] sits in a block entered only when [authMode]
    is truthy. *)
Lemma initiate_try_never_misses_authMode payload w :
  result (ConnectedAccounts.initiate_try payload w)
  ≠ Throw (JsError "authMode is required when integrationId is not provided").
Proof.
  unfold ConnectedAccounts.initiate_try, ConnectedAccounts.require_str,
    ConnectedAccounts.require_obj, Apps.get.
  destruct (truthy_str (InitiateConnectionDataReq.integrationId payload));
    cbn [negb andb].
  { unfold_run. by destruct (send _ false w) as [[?|[?|]] ?]. }
  destruct (truthy_str (InitiateConnectionDataReq.authMode payload)) eqn:Hmode.
  2: { unfold_run. by destruct (send _ false w) as [[?|[?|]] ?]. }
  unfold_run. destruct (date_now w) as [t w1]. run_simpl.
  destruct (truthy_str (InitiateConnectionDataReq.appName payload));
    run_simpl; [|discriminate].
  destruct (truthy_obj (InitiateConnectionDataReq.authConfig payload));
    run_simpl; [|discriminate].
  destruct (send (getApp _) false _) as [[?|[?|]] ?]; run_simpl;
    try discriminate.
  destruct (integrations_create _ _) as [[?|?] ?]; run_simpl;
    try discriminate.
  by destruct (send _ false _) as [[?|[?|]] ?].
Qed.

(** C10. For every payload and every behaviour of the backend, the [try]
    block of [initiate] never throws the error "authMode is required when
    integrationId is not provided", so whatever [initiate] throws is the
    normalization of some other error. *)
Theorem initiate_authMode_error_unreachable payload w :
  result (ConnectedAccounts.initiate_try payload w)
  ≠ Throw (JsError "authMode is required when integrationId is not provided")
  ∧ ∀ e, result (ConnectedAccounts.initiate payload w) = Throw e →
      ∃ e0, e = Normalized (handleAllError e0)
            ∧ result (ConnectedAccounts.initiate_try payload w) = Throw e0
            ∧ e0 ≠ JsError
                     "authMode is required when integrationId is not provided".
Proof.
  pose proof (initiate_try_never_misses_authMode payload w) as Hnever.
  split; [exact Hnever|].
  intros e. unfold ConnectedAccounts.initiate.
  unfold bind, manualTelemetry, emit, try_catch.
  destruct (ConnectedAccounts.initiate_try payload w) as [[cr|e0|] w1 es];
    cbn [result] in *; try discriminate.
  intros [= <-]. exists e0. repeat split. congruence.
Qed.
End Initiate.

Lemma initiate_authMode_error_unreachable_witness :
  result (ConnectedAccounts.initiate_try (P := Demo.never_active)
            (InitiateConnectionDataReq.mk None None None None None
               (Some "OAUTH2") None None) 0)
  ≠ Throw (JsError "authMode is required when integrationId is not provided")
  ∧ ∃ e0,
      Normalized "appName is required when integrationId is not provided"
      = Normalized (Demo.normalize e0)
      ∧ result (ConnectedAccounts.initiate_try (P := Demo.never_active)
                  (InitiateConnectionDataReq.mk None None None None None
                     (Some "OAUTH2") None None) 0) = Throw e0
      ∧ e0 ≠ JsError
               "authMode is required when integrationId is not provided".
Proof.
  destruct (initiate_authMode_error_unreachable (P := Demo.never_active)
              (InitiateConnectionDataReq.mk None None None None None
                 (Some "OAUTH2") None None) 0) as [Htry Hthrown].
  split; [exact Htry|].
  apply Hthrown. reflexivity.
Defined.

(** The two neighbouring checks do fire. *)
Example initiate_appName_error_reachable :
  result (ConnectedAccounts.initiate_try (P := Demo.never_active)
            (InitiateConnectionDataReq.mk None None None None None
               (Some "OAUTH2") None None) 0)
  = Throw (JsError "appName is required when integrationId is not provided").
Proof. reflexivity. Qed.

Example initiate_authConfig_error_reachable :
  result (ConnectedAccounts.initiate_try (P := Demo.never_active)
            (InitiateConnectionDataReq.mk None None None None None
               (Some "OAUTH2") None (Some "github")) 0)
  = Throw (JsError "authConfig is required when integrationId is not provided").
Proof. reflexivity. Qed.

(** The integration is created under a name built from the clock. *)
Example initiate_creates_integration :
  ConnectedAccounts.initiate (P := Demo.never_active)
    (InitiateConnectionDataReq.mk None (Some "user_7") None None None
       (Some "OAUTH2") (Some (JsObject [])) (Some "github")) 0
  = mkRun (P := Demo.never_active)
      (Ok (ConnectionRequest.mk (JSome "INITIATED") (JSome "acc_1")
             (JSome "https://backend.example/redirect")))
      30
      [EvTelemetry "initiate" ConnectedAccounts.fileName
         (ParamsPayload
            (InitiateConnectionDataReq.mk None (Some "user_7") None None None
               (Some "OAUTH2") (Some (JsObject [])) (Some "github")));
       EvDateNow;
       EvTelemetry "get" Apps.fileName
         (ParamsGetApp (GetAppDataParams.mk "github"));
       EvRequest (getApp "github") false;
       EvIntegrationsCreate
         (CreateIntegration.mk (Some "app_github")
            "integration_20240506T070809010Z" "OAUTH2" (JsObject []) false);
       EvRequest
         (initiateConnection
            (BodyInitiate (Some "int_new") "user_7" None None (JsObject [])))
         false].
Proof. reflexivity. Qed.

(** C1 (the code departs from the claim). Called with [appName] alone, so
    with neither [integrationId] nor [authMode], [initiate] does not fail:
    it makes no app lookup and creates no integration, but posts the
    initiate-connection request with an undefined [integrationId] and wraps
    whatever the backend answers. *)
Theorem initiate_bare_payload_sends_request :
  ConnectedAccounts.initiate (P := Demo.never_active) Demo.bare_payload 0
  = mkRun (P := Demo.never_active)
      (Ok (ConnectionRequest.mk (JSome "INITIATED") (JSome "acc_1")
             (JSome "https://backend.example/redirect")))
      10
      [EvTelemetry "initiate" ConnectedAccounts.fileName
         (ParamsPayload Demo.bare_payload);
       EvRequest
         (initiateConnection
            (BodyInitiate None "default" None None (JsObject [])))
         false].
Proof. reflexivity. Qed.

(** ** Schema validation in [ConnectedAccounts] *)

Section Validation.
Context `{P : Platform}.

(** [get] parses its argument first: a rejected argument ends the call
    with the normalized zod error and no request is sent. *)
Lemma get_validates_first data w issues :
  ZSingleConnectionParams_parse data = Some issues →
  ConnectedAccounts.get data w
  = mkRun (Throw (Normalized (handleAllError (ZodError issues)))) w
      [EvTelemetry "get" ConnectedAccounts.fileName (ParamsSingle data);
       EvParse "ZSingleConnectionParams"].
Proof.
  intros Hparse. unfold ConnectedAccounts.get. unfold_run.
  by rewrite Hparse.
Qed.

Lemma delete_validates_first data w issues :
  ZSingleConnectionParams_parse data = Some issues →
  ConnectedAccounts.delete data w
  = mkRun (Throw (Normalized (handleAllError (ZodError issues)))) w
      [EvTelemetry "delete" ConnectedAccounts.fileName (ParamsSingle data);
       EvParse "ZSingleConnectionParams"].
Proof.
  intros Hparse. unfold ConnectedAccounts.delete. unfold_run.
  by rewrite Hparse.
Qed.

Lemma initiate_never_parses payload w :
  count is_parse (events (ConnectedAccounts.initiate payload w)) = 0%nat.
Proof.
  unfold ConnectedAccounts.initiate, ConnectedAccounts.initiate_try,
    ConnectedAccounts.require_str, ConnectedAccounts.require_obj, Apps.get.
  destruct (truthy_str (InitiateConnectionDataReq.integrationId payload));
    cbn [negb andb].
  { unfold_run. by destruct (send _ false w) as [[?|[?|]] ?]. }
  destruct (truthy_str (InitiateConnectionDataReq.authMode payload)) eqn:Hmode.
  2: { unfold_run. by destruct (send _ false w) as [[?|[?|]] ?]. }
  unfold_run. destruct (date_now w) as [t w1]. run_simpl.
  destruct (truthy_str (InitiateConnectionDataReq.appName payload));
    run_simpl; [|done].
  destruct (truthy_obj (InitiateConnectionDataReq.authConfig payload));
    run_simpl; [|done].
  destruct (send (getApp _) false _) as [[?|[?|]] ?]; run_simpl; try done.
  destruct (integrations_create _ _) as [[?|?] ?]; run_simpl; try done.
  by destruct (send _ false _) as [[?|[?|]] ?].
Qed.

(** For every argument and every backend, [list] and [create] send their
    request right after the telemetry event and [initiate] runs to its end
    without a single schema parse. *)
Lemma list_create_initiate_do_not_validate data payload w :
  events (ConnectedAccounts.list data w)
  = [EvTelemetry "list" ConnectedAccounts.fileName (ParamsData data);
     EvRequest (listConnections data) false]
  ∧ events (ConnectedAccounts.create data w)
    = [EvTelemetry "create" ConnectedAccounts.fileName (ParamsData data);
       EvRequest (initiateConnection (BodyPayload data)) true]
  ∧ count is_parse (events (ConnectedAccounts.initiate payload w)) = 0%nat.
Proof.
  split; [|split].
  - unfold ConnectedAccounts.list. unfold_run.
    by destruct (send _ false w) as [[?|[?|]] ?].
  - unfold ConnectedAccounts.create. unfold_run.
    by destruct (send _ true w) as [[?|[?|]] ?].
  - apply initiate_never_parses.
Qed.

(** C3 (amended). Each public method that parses its input with a schema
    ([Apps.getRequiredParams], [Apps.getRequiredParamsForAuthScheme],
    [ConnectedAccounts.get], [ConnectedAccounts.delete],
    [ConnectionRequest.saveUserAccessData], [ConnectionRequest.getAuthInfo])
    does so before any network call, after handing the input to telemetry
    where the method emits telemetry: for every input its run opens with
    the telemetry event, if it has one, and the parse, so that every
    request comes after the parse; and when the schema rejects the input
    the call ends there, without any request, throwing the schema's error
    passed through the error normalization. Each method stands on its own
    schema alone. *)
Theorem validation_gates_requests this w :
  (∀ appId,
     (∃ rest,
        events (Apps.getRequiredParams appId w)
        = [EvTelemetry "getRequiredParams" Apps.fileName (ParamsAppId appId);
           EvParse "ZGetRequiredParams"] ++ rest)
     ∧ ∀ issues,
         ZGetRequiredParams_parse appId = Some issues →
         Apps.getRequiredParams appId w
         = mkRun (Throw (Normalized (handleAllError (ZodError issues)))) w
             [EvTelemetry "getRequiredParams" Apps.fileName
                (ParamsAppId appId);
              EvParse "ZGetRequiredParams"])
  ∧ (∀ appId authScheme,
       (∃ rest,
          events (Apps.getRequiredParamsForAuthScheme appId authScheme w)
          = [EvTelemetry "getRequiredParamsForAuthScheme" Apps.fileName
               (ParamsAppIdAuthScheme appId authScheme);
             EvParse "ZGetRequiredParamsForAuthScheme"] ++ rest)
       ∧ ∀ issues,
           ZGetRequiredParamsForAuthScheme_parse appId authScheme
           = Some issues →
           Apps.getRequiredParamsForAuthScheme appId authScheme w
           = mkRun (Throw (Normalized (handleAllError (ZodError issues)))) w
               [EvTelemetry "getRequiredParamsForAuthScheme" Apps.fileName
                  (ParamsAppIdAuthScheme appId authScheme);
                EvParse "ZGetRequiredParamsForAuthScheme"])
  ∧ (∀ single,
       (∃ rest,
          events (ConnectedAccounts.get single w)
          = [EvTelemetry "get" ConnectedAccounts.fileName
               (ParamsSingle single);
             EvParse "ZSingleConnectionParams"] ++ rest)
       ∧ ∀ issues,
           ZSingleConnectionParams_parse single = Some issues →
           ConnectedAccounts.get single w
           = mkRun (Throw (Normalized (handleAllError (ZodError issues)))) w
               [EvTelemetry "get" ConnectedAccounts.fileName
                  (ParamsSingle single);
                EvParse "ZSingleConnectionParams"])
  ∧ (∀ single,
       (∃ rest,
          events (ConnectedAccounts.delete single w)
          = [EvTelemetry "delete" ConnectedAccounts.fileName
               (ParamsSingle single);
             EvParse "ZSingleConnectionParams"] ++ rest)
       ∧ ∀ issues,
           ZSingleConnectionParams_parse single = Some issues →
           ConnectedAccounts.delete single w
           = mkRun (Throw (Normalized (handleAllError (ZodError issues)))) w
               [EvTelemetry "delete" ConnectedAccounts.fileName
                  (ParamsSingle single);
                EvParse "ZSingleConnectionParams"])
  ∧ (∀ save,
       (∃ rest,
          events (ConnectionRequest.saveUserAccessData this save w)
          = [EvParse "ZSaveUserAccessDataParam"] ++ rest)
       ∧ ∀ issues,
           ZSaveUserAccessDataParam_parse save = Some issues →
           ConnectionRequest.saveUserAccessData this save w
           = mkRun (Throw (Normalized (handleAllError (ZodError issues)))) w
               [EvParse "ZSaveUserAccessDataParam"])
  ∧ (∀ single,
       (∃ rest,
          events (ConnectionRequest.getAuthInfo this single w)
          = [EvParse "ZSingleConnectionParams"] ++ rest)
       ∧ ∀ issues,
           ZSingleConnectionParams_parse single = Some issues →
           ConnectionRequest.getAuthInfo this single w
           = mkRun (Throw (Normalized (handleAllError (ZodError issues)))) w
               [EvParse "ZSingleConnectionParams"]).
Proof.
  split; [|split; [|split; [|split; [|split]]]].
  - intros appId. split.
    + unfold Apps.getRequiredParams, Apps.get. unfold_run.
      split_run; by eexists.
    + intros issues Hparse. unfold Apps.getRequiredParams. unfold_run.
      by rewrite Hparse.
  - intros appId authScheme. split.
    + unfold Apps.getRequiredParamsForAuthScheme, Apps.getRequiredParams,
        Apps.get.
      unfold_run. split_run; by eexists.
    + intros issues Hparse. unfold Apps.getRequiredParamsForAuthScheme.
      unfold_run. by rewrite Hparse.
  - intros single. split.
    + unfold ConnectedAccounts.get. unfold_run. split_run; by eexists.
    + intros issues Hparse. by apply get_validates_first.
  - intros single. split.
    + unfold ConnectedAccounts.delete. unfold_run. split_run; by eexists.
    + intros issues Hparse. by apply delete_validates_first.
  - intros save. split.
    + unfold ConnectionRequest.saveUserAccessData. unfold_run.
      split_run; by eexists.
    + intros issues Hparse. unfold ConnectionRequest.saveUserAccessData.
      unfold_run. by rewrite Hparse.
  - intros single. split.
    + unfold ConnectionRequest.getAuthInfo. unfold_run.
      split_run; by eexists.
    + intros issues Hparse. unfold ConnectionRequest.getAuthInfo.
      unfold_run. by rewrite Hparse.
Qed.

(** An accepted input is parsed before the request leaves. *)
Lemma get_parses_before_request data w :
  ZSingleConnectionParams_parse data = None →
  events (ConnectedAccounts.get data w)
  = [EvTelemetry "get" ConnectedAccounts.fileName (ParamsSingle data);
     EvParse "ZSingleConnectionParams";
     EvRequest
       (getConnection (JSome (SingleConnectionParam.connectedAccountId data)))
       true].
Proof.
  intros Hparse. unfold ConnectedAccounts.get. unfold_run.
  rewrite Hparse. run_simpl. by destruct (send _ true w) as [[?|[?|]] ?].
Qed.
End Validation.

Lemma validation_gates_requests_witness :
  Apps.getRequiredParams (P := Demo.never_active) "" 0
  = mkRun (P := Demo.never_active)
      (Throw (Normalized "validation failed")) 0
      [EvTelemetry "getRequiredParams" Apps.fileName (ParamsAppId "");
       EvParse "ZGetRequiredParams"]
  ∧ Apps.getRequiredParamsForAuthScheme (P := Demo.never_active) "github" "" 0
    = mkRun (P := Demo.never_active)
        (Throw (Normalized "validation failed")) 0
        [EvTelemetry "getRequiredParamsForAuthScheme" Apps.fileName
           (ParamsAppIdAuthScheme "github" "");
         EvParse "ZGetRequiredParamsForAuthScheme"]
  ∧ ConnectedAccounts.get (P := Demo.never_active)
      (SingleConnectionParam.mk "") 0
    = mkRun (P := Demo.never_active)
        (Throw (Normalized "validation failed")) 0
        [EvTelemetry "get" ConnectedAccounts.fileName
           (ParamsSingle (SingleConnectionParam.mk ""));
         EvParse "ZSingleConnectionParams"]
  ∧ ConnectedAccounts.delete (P := Demo.never_active)
      (SingleConnectionParam.mk "") 0
    = mkRun (P := Demo.never_active)
        (Throw (Normalized "validation failed")) 0
        [EvTelemetry "delete" ConnectedAccounts.fileName
           (ParamsSingle (SingleConnectionParam.mk ""));
         EvParse "ZSingleConnectionParams"]
  ∧ ConnectionRequest.saveUserAccessData (P := Demo.never_active)
      Demo.request_1 (SaveUserAccessDataParam.mk (JsObject []) None (Some "")) 0
    = mkRun (P := Demo.never_active)
        (Throw (Normalized "validation failed")) 0
        [EvParse "ZSaveUserAccessDataParam"]
  ∧ ConnectionRequest.getAuthInfo (P := Demo.never_active)
      Demo.request_1 (SingleConnectionParam.mk "") 0
    = mkRun (P := Demo.never_active)
        (Throw (Normalized "validation failed")) 0
        [EvParse "ZSingleConnectionParams"].
Proof.
  destruct (validation_gates_requests (P := Demo.never_active)
              Demo.request_1 0)
    as (Hparams & Hscheme & Hget & Hdelete & Hsave & Hinfo).
  split; [|split; [|split; [|split; [|split]]]].
  - apply (proj2 (Hparams "")
             (JsObject [("path", JsString "appId");
                        ("message", JsString "must not be empty")])).
    reflexivity.
  - apply (proj2 (Hscheme "github" "")
             (JsObject [("path", JsString "authScheme");
                        ("message", JsString "must not be empty")])).
    reflexivity.
  - apply (proj2 (Hget (SingleConnectionParam.mk ""))
             (JsObject [("path", JsString "connectedAccountId");
                        ("message", JsString "must not be empty")])).
    reflexivity.
  - apply (proj2 (Hdelete (SingleConnectionParam.mk ""))
             (JsObject [("path", JsString "connectedAccountId");
                        ("message", JsString "must not be empty")])).
    reflexivity.
  - apply (proj2 (Hsave (SaveUserAccessDataParam.mk (JsObject []) None
                           (Some "")))
             (JsObject [("path", JsString "entityId");
                        ("message", JsString "must not be empty")])).
    reflexivity.
  - apply (proj2 (Hinfo (SingleConnectionParam.mk ""))
             (JsObject [("path", JsString "connectedAccountId");
                        ("message", JsString "must not be empty")])).
    reflexivity.
Defined.

(** C3, as stated, fails on [list]: whatever the query, the run holds no
    schema parse and the query goes out in the request. It fails on
    [create] and [initiate] in the same way, and in the methods that do
    validate, the telemetry event has received the input before the parse. *)
Lemma list_sends_unvalidated_query :
  ConnectedAccounts.list (P := Demo.never_active)
    (JsObject [("pageSize", JsString "ten")]) 0
  = mkRun (P := Demo.never_active) (Ok (Some (JsArray []))) 10
      [EvTelemetry "list" ConnectedAccounts.fileName
         (ParamsData (JsObject [("pageSize", JsString "ten")]));
       EvRequest (listConnections (JsObject [("pageSize", JsString "ten")]))
         false]
  ∧ count is_parse
      (events (ConnectedAccounts.list (P := Demo.never_active)
                 (JsObject [("pageSize", JsString "ten")]) 0)) = 0%nat
  ∧ count is_parse
      (events (ConnectedAccounts.create (P := Demo.never_active)
                 (JsObject [("integrationId", JsNumber 7)]) 0)) = 0%nat
  ∧ count is_parse
      (events (ConnectedAccounts.initiate (P := Demo.never_active)
                 Demo.bare_payload 0)) = 0%nat
  ∧ events (ConnectedAccounts.get (P := Demo.never_active)
              (SingleConnectionParam.mk "") 0)
    = [EvTelemetry "get" ConnectedAccounts.fileName
         (ParamsSingle (SingleConnectionParam.mk ""));
       EvParse "ZSingleConnectionParams"].
Proof. repeat split. Qed.

(** ** [ConnectionRequest.waitUntilActive] *)

Section WaitUntilActive.
Context `{P : Platform}.

Lemma waitUntilActive_loop_active fuel : ∀ this startTime timeout w c,
  result (ConnectionRequest.waitUntilActive_loop fuel this startTime timeout w)
  = Ok c →
  Connection.status c = "ACTIVE".
Proof.
  induction fuel as [|fuel IH]; intros this startTime timeout w c;
    cbn [ConnectionRequest.waitUntilActive_loop].
  - discriminate.
  - unfold_run. destruct (date_now w) as [t w1]. run_simpl.
    destruct (t - startTime <? timeout * 1000); run_simpl; [|discriminate].
    destruct (send _ false w1) as [[reason|[connection|]] w2]; run_simpl;
      try discriminate.
    destruct (String.eqb (Connection.status connection) "ACTIVE") eqn:Hst;
      run_simpl.
    + intros [= <-]. by apply String.eqb_eq.
    + destruct (ConnectionRequest.waitUntilActive_loop fuel this startTime
                  timeout (sleep 1000 w2)) as [[c'|e|] w3 es] eqn:Hrec;
        run_simpl; try discriminate.
      intros [= <-]. eapply IH. by rewrite Hrec.
Qed.

(** C9. Whenever [waitUntilActive] returns a connection rather than
    throwing, the status of that connection is ["ACTIVE"]. *)
Theorem waitUntilActive_returns_active fuel this timeout w c :
  result (ConnectionRequest.waitUntilActive fuel this timeout w) = Ok c →
  Connection.status c = "ACTIVE".
Proof.
  unfold ConnectionRequest.waitUntilActive. intros Hres.
  apply try_catch_Ok in Hres. revert Hres.
  unfold_run. destruct (date_now w) as [t0 w0]. run_simpl.
  destruct (ConnectionRequest.waitUntilActive_loop fuel this t0
              (default 60 timeout) w0) as [[c'|e|] w1 es] eqn:Hloop;
    run_simpl; try discriminate.
  intros [= <-]. eapply waitUntilActive_loop_active. by rewrite Hloop.
Qed.

(** An account that is active at the first fetch is returned after two
    clock reads and one request. *)
Lemma waitUntilActive_immediate fuel this timeout w t0 w1 t1 w2 c w3 :
  date_now w = (t0, w1) →
  date_now w1 = (t1, w2) →
  t1 - t0 < timeout * 1000 →
  send (getConnection (ConnectionRequest.connectedAccountId this)) false w2
  = (inr (Some c), w3) →
  Connection.status c = "ACTIVE" →
  ConnectionRequest.waitUntilActive (S fuel) this (Some timeout) w
  = mkRun (Ok c) w3
      [EvDateNow; EvDateNow;
       EvRequest (getConnection (ConnectionRequest.connectedAccountId this))
         false].
Proof.
  intros Hstart Hnow Hlt Hsend Hactive.
  apply Z.ltb_lt in Hlt. apply String.eqb_eq in Hactive.
  unfold ConnectionRequest.waitUntilActive.
  change (default 60 (Some timeout)) with timeout.
  cbn [ConnectionRequest.waitUntilActive_loop]. unfold_run.
  rewrite Hstart. run_simpl. rewrite Hnow. run_simpl.
  rewrite Hlt. run_simpl. rewrite Hsend. run_simpl.
  by rewrite Hactive.
Qed.

Section NotActiveInTime.
Variable this : ConnectionRequest.t.
Variables startTime timeout : Z.

(** Reading the clock or waiting for an answer does not turn the clock
    back, and a sleep lasts at least as long as asked. *)
Hypothesis date_now_monotone : ∀ w, time_of w ≤ time_of (snd (date_now w)).
Hypothesis send_monotone :
  ∀ r b w, time_of w ≤ time_of (snd (send r b w)).
Hypothesis sleep_lasts : ∀ ms w, time_of w + ms ≤ time_of (sleep ms w).

(** A fetch made after a clock read that is still within the timeout
    finds the account, and finds it not active. What the account is
    once the timeout has passed is left open. *)
Hypothesis not_active_in_time : ∀ w,
  time_of w - startTime < timeout * 1000 →
  ∃ c,
    fst (send (getConnection (ConnectionRequest.connectedAccountId this))
           false (snd (date_now w))) = inr (Some c)
    ∧ Connection.status c ≠ "ACTIVE".

Lemma waitUntilActive_loop_times_out (n : nat) :
  ∀ fuel w,
    (n < fuel)%nat →
    timeout * 1000 - (time_of w - startTime) ≤ 1000 * Z.of_nat n →
    ∃ w' es,
      ConnectionRequest.waitUntilActive_loop fuel this startTime timeout w
      = mkRun (Throw (JsError timeout_message)) w' es
      ∧ (count is_request es ≤ n)%nat
      ∧ (count is_sleep es ≤ n)%nat.
Proof.
  induction n as [|n IH]; intros fuel w Hfuel Hleft;
    (destruct fuel as [|fuel]; [lia|]);
    cbn [ConnectionRequest.waitUntilActive_loop];
    pose proof (not_active_in_time w) as Hfetch;
    unfold time_of in Hleft, Hfetch;
    pose proof (date_now_monotone w) as Hmono; unfold time_of in Hmono;
    unfold bind at 1, now at 1;
    destruct (date_now w) as [t w1] eqn:Hnow; cbn [fst snd] in *.
  - assert ((t - startTime <? timeout * 1000) = false) as ->
      by (apply Z.ltb_ge; lia).
    eexists _, _. split; [reflexivity|]. unfold count. cbn. lia.
  - destruct (t - startTime <? timeout * 1000) eqn:Hlt.
    2: { eexists _, _. split; [reflexivity|]. unfold count. cbn. lia. }
    apply Z.ltb_lt in Hlt.
    destruct (Hfetch Hlt) as (c & Hc & Hstatus).
    pose proof (send_monotone
                  (getConnection (ConnectionRequest.connectedAccountId this))
                  false w1) as Hsend.
    unfold bind at 1, call at 1.
    destruct (send _ false w1) as [a w2]. cbn [fst snd] in *. subst a.
    apply String.eqb_neq in Hstatus. rewrite Hstatus.
    pose proof (sleep_lasts 1000 w2) as Hsleep.
    destruct (IH fuel (sleep 1000 w2)) as (w' & es & Hrun & Hreq & Hslp);
      [lia | unfold time_of in *; lia |].
    unfold bind at 1, setTimeout at 1. rewrite Hrun.
    eexists _, _. split; [reflexivity|].
    unfold count in *. cbn. lia.
Qed.
End NotActiveInTime.

Lemma waitUntilActive_times_out this timeout fuel w :
  (∀ w, time_of w ≤ time_of (snd (date_now w))) →
  (∀ r b w, time_of w ≤ time_of (snd (send r b w))) →
  (∀ ms w, time_of w + ms ≤ time_of (sleep ms w)) →
  (∀ w', time_of w' - time_of w < timeout * 1000 →
     ∃ c,
       fst (send (getConnection (ConnectionRequest.connectedAccountId this))
              false (snd (date_now w'))) = inr (Some c)
       ∧ Connection.status c ≠ "ACTIVE") →
  (Z.to_nat timeout < fuel)%nat →
  ∃ w' es,
    ConnectionRequest.waitUntilActive fuel this (Some timeout) w
    = mkRun (Throw (Normalized (handleAllError (JsError timeout_message))))
        w' es
    ∧ (count is_request es ≤ Z.to_nat timeout)%nat
    ∧ (count is_sleep es ≤ Z.to_nat timeout)%nat.
Proof.
  intros Hnow_mono Hsend_mono Hsleep Hnot_active Hfuel.
  unfold ConnectionRequest.waitUntilActive.
  change (default 60 (Some timeout)) with timeout.
  pose proof (Hnow_mono w) as Hmono. unfold time_of in Hmono, Hnot_active.
  unfold try_catch, bind at 1, now at 1.
  destruct (date_now w) as [t0 w0] eqn:Hnow. cbn [fst snd] in *.
  destruct (waitUntilActive_loop_times_out this t0 timeout
              Hnow_mono Hsend_mono Hsleep Hnot_active
              (Z.to_nat timeout) fuel w0)
    as (w' & es & Hrun & Hreq & Hslp);
    [done | unfold time_of; lia |].
  rewrite Hrun. eexists _, _. split; [reflexivity|].
  unfold count in *. cbn. lia.
Qed.

End WaitUntilActive.


(** The timed-out run in full, for an account that turns active after the
    deadline: one poll, one sleep, three clock reads. *)
Example waitUntilActive_one_second :
  ConnectionRequest.waitUntilActive (P := Demo.active_at 5000) 2
    Demo.request_1 (Some 1) 0
  = mkRun (P := Demo.active_at 5000)
      (Throw (Normalized
         "Connection did not become active within the timeout period."))
      1010
      [EvDateNow; EvDateNow;
       EvRequest (getConnection (JSome "acc_1")) false;
       EvSleep 1000; EvDateNow].
Proof. reflexivity. Qed.

(** With a timeout of zero seconds no fetch is made at all. *)
Example waitUntilActive_zero_seconds :
  ConnectionRequest.waitUntilActive (P := Demo.active_at 0) 1
    Demo.request_1 (Some 0) 0
  = mkRun (P := Demo.active_at 0)
      (Throw (Normalized
         "Connection did not become active within the timeout period."))
      0 [EvDateNow; EvDateNow].
Proof. reflexivity. Qed.

Lemma waitUntilActive_returns_active_witness :
  result (ConnectionRequest.waitUntilActive (P := Demo.active_at 1500) 5
            Demo.request_1 None 0)
  = Ok (Connection.mk "acc_1" "int_1" "ACTIVE")
  ∧ Connection.status (Connection.mk "acc_1" "int_1" "ACTIVE") = "ACTIVE".
Proof.
  split; [reflexivity|].
  apply (waitUntilActive_returns_active (P := Demo.active_at 1500) 5
           Demo.request_1 None 0).
  reflexivity.
Defined.

(** ** Telemetry *)

Section Telemetry.
Context `{P : Platform}.

Lemma Apps_list_telemetry w :
  emits_own "list" Apps.fileName ParamsNone (events (Apps.list w)).
Proof. unfold Apps.list. unfold_run. split_run; own_event. Qed.

Lemma Apps_get_telemetry data w :
  emits_own "get" Apps.fileName (ParamsGetApp data) (events (Apps.get data w)).
Proof. unfold Apps.get. unfold_run. split_run; own_event. Qed.

Lemma Apps_getRequiredParams_telemetry appId w :
  emits_own "getRequiredParams" Apps.fileName (ParamsAppId appId)
    (events (Apps.getRequiredParams appId w)).
Proof.
  unfold Apps.getRequiredParams, Apps.get. unfold_run.
  split_run; own_event.
Qed.

Lemma Apps_getRequiredParamsForAuthScheme_telemetry appId authScheme w :
  emits_own "getRequiredParamsForAuthScheme" Apps.fileName
    (ParamsAppIdAuthScheme appId authScheme)
    (events (Apps.getRequiredParamsForAuthScheme appId authScheme w)).
Proof.
  unfold Apps.getRequiredParamsForAuthScheme, Apps.getRequiredParams,
    Apps.get.
  unfold_run. split_run; own_event.
Qed.

Lemma ConnectedAccounts_list_telemetry data w :
  emits_own "list" ConnectedAccounts.fileName (ParamsData data)
    (events (ConnectedAccounts.list data w)).
Proof. unfold ConnectedAccounts.list. unfold_run. split_run; own_event. Qed.

Lemma ConnectedAccounts_create_telemetry data w :
  emits_own "create" ConnectedAccounts.fileName (ParamsData data)
    (events (ConnectedAccounts.create data w)).
Proof. unfold ConnectedAccounts.create. unfold_run. split_run; own_event. Qed.

Lemma ConnectedAccounts_get_telemetry data w :
  emits_own "get" ConnectedAccounts.fileName (ParamsSingle data)
    (events (ConnectedAccounts.get data w)).
Proof. unfold ConnectedAccounts.get. unfold_run. split_run; own_event. Qed.

Lemma ConnectedAccounts_delete_telemetry data w :
  emits_own "delete" ConnectedAccounts.fileName (ParamsSingle data)
    (events (ConnectedAccounts.delete data w)).
Proof. unfold ConnectedAccounts.delete. unfold_run. split_run; own_event. Qed.

Lemma ConnectedAccounts_initiate_telemetry payload w :
  emits_own "initiate" ConnectedAccounts.fileName (ParamsPayload payload)
    (events (ConnectedAccounts.initiate payload w)).
Proof.
  unfold ConnectedAccounts.initiate, ConnectedAccounts.initiate_try,
    ConnectedAccounts.require_str, ConnectedAccounts.require_obj, Apps.get.
  destruct (truthy_str (InitiateConnectionDataReq.integrationId payload));
    destruct (truthy_str (InitiateConnectionDataReq.authMode payload));
    cbn [negb andb]; unfold_run; split_run; own_event.
Qed.

Lemma saveUserAccessData_no_telemetry this data w :
  count is_telemetry (events (ConnectionRequest.saveUserAccessData this data w))
  = 0%nat.
Proof.
  unfold ConnectionRequest.saveUserAccessData. unfold_run.
  split_run; reflexivity.
Qed.

Lemma getAuthInfo_no_telemetry this data w :
  count is_telemetry (events (ConnectionRequest.getAuthInfo this data w))
  = 0%nat.
Proof.
  unfold ConnectionRequest.getAuthInfo. unfold_run. split_run; reflexivity.
Qed.

Lemma waitUntilActive_loop_no_telemetry fuel : ∀ this startTime timeout w,
  count is_telemetry
    (events (ConnectionRequest.waitUntilActive_loop fuel this startTime
               timeout w))
  = 0%nat.
Proof.
  induction fuel as [|fuel IH]; intros this startTime timeout w;
    cbn [ConnectionRequest.waitUntilActive_loop].
  - reflexivity.
  - unfold bind at 1, now at 1. destruct (date_now w) as [t w1].
    destruct (t - startTime <? timeout * 1000); [|reflexivity].
    unfold bind at 1, call at 1.
    destruct (send _ false w1) as [[reason|[connection|]] w2];
      try reflexivity.
    destruct (String.eqb (Connection.status connection) "ACTIVE");
      [reflexivity|].
    unfold bind at 1, setTimeout at 1.
    specialize (IH this startTime timeout (sleep 1000 w2)).
    destruct (ConnectionRequest.waitUntilActive_loop fuel this startTime
                timeout (sleep 1000 w2)) as [r w3 es].
    exact IH.
Qed.

Lemma waitUntilActive_no_telemetry fuel this timeout w :
  count is_telemetry
    (events (ConnectionRequest.waitUntilActive fuel this timeout w))
  = 0%nat.
Proof.
  unfold ConnectionRequest.waitUntilActive. rewrite try_catch_events.
  unfold bind at 1, now at 1. destruct (date_now w) as [t0 w0].
  pose proof (waitUntilActive_loop_no_telemetry fuel this t0
                (default 60 timeout) w0) as Hloop.
  destruct (ConnectionRequest.waitUntilActive_loop fuel this t0
              (default 60 timeout) w0) as [r w1 es].
  exact Hloop.
Qed.

(** C4 (amended). Every public method of [Apps] and of
    [ConnectedAccounts] opens with one telemetry event of its own, carrying
    the method name, the file name of its module and the call parameters,
    and its run holds no second event with this method and file (a public
    method it calls emits the callee's event in turn). The
    [ConnectionRequest] methods [saveUserAccessData], [getAuthInfo] and
    [waitUntilActive] emit no telemetry event. *)
Theorem telemetry_of_public_methods
    w appId authScheme appData data single payload this save fuel timeout :
  emits_own "list" Apps.fileName ParamsNone (events (Apps.list w))
  ∧ emits_own "get" Apps.fileName (ParamsGetApp appData)
      (events (Apps.get appData w))
  ∧ emits_own "getRequiredParams" Apps.fileName (ParamsAppId appId)
      (events (Apps.getRequiredParams appId w))
  ∧ emits_own "getRequiredParamsForAuthScheme" Apps.fileName
      (ParamsAppIdAuthScheme appId authScheme)
      (events (Apps.getRequiredParamsForAuthScheme appId authScheme w))
  ∧ emits_own "list" ConnectedAccounts.fileName (ParamsData data)
      (events (ConnectedAccounts.list data w))
  ∧ emits_own "create" ConnectedAccounts.fileName (ParamsData data)
      (events (ConnectedAccounts.create data w))
  ∧ emits_own "get" ConnectedAccounts.fileName (ParamsSingle single)
      (events (ConnectedAccounts.get single w))
  ∧ emits_own "delete" ConnectedAccounts.fileName (ParamsSingle single)
      (events (ConnectedAccounts.delete single w))
  ∧ emits_own "initiate" ConnectedAccounts.fileName (ParamsPayload payload)
      (events (ConnectedAccounts.initiate payload w))
  ∧ count is_telemetry
      (events (ConnectionRequest.saveUserAccessData this save w)) = 0%nat
  ∧ count is_telemetry
      (events (ConnectionRequest.getAuthInfo this single w)) = 0%nat
  ∧ count is_telemetry
      (events (ConnectionRequest.waitUntilActive fuel this timeout w))
    = 0%nat.
Proof.
  split; [apply Apps_list_telemetry|].
  split; [apply Apps_get_telemetry|].
  split; [apply Apps_getRequiredParams_telemetry|].
  split; [apply Apps_getRequiredParamsForAuthScheme_telemetry|].
  split; [apply ConnectedAccounts_list_telemetry|].
  split; [apply ConnectedAccounts_create_telemetry|].
  split; [apply ConnectedAccounts_get_telemetry|].
  split; [apply ConnectedAccounts_delete_telemetry|].
  split; [apply ConnectedAccounts_initiate_telemetry|].
  split; [apply saveUserAccessData_no_telemetry|].
  split; [apply getAuthInfo_no_telemetry|].
  apply waitUntilActive_no_telemetry.
Qed.
End Telemetry.

(** C4, as stated, fails on the three [ConnectionRequest] methods: none of
    their runs holds exactly one telemetry event, each holds none. *)
Lemma ConnectionRequest_methods_without_telemetry :
  events (ConnectionRequest.getAuthInfo (P := Demo.never_active)
            Demo.request_1 (SingleConnectionParam.mk "acc_1") 0)
  = [EvParse "ZSingleConnectionParams";
     EvRequest (getConnectionInfo "acc_1") false]
  ∧ count is_telemetry
      (events (ConnectionRequest.getAuthInfo (P := Demo.never_active)
                 Demo.request_1 (SingleConnectionParam.mk "acc_1") 0))
    ≠ 1%nat
  ∧ count is_telemetry
      (events (ConnectionRequest.saveUserAccessData (P := Demo.never_active)
                 Demo.request_1
                 (SaveUserAccessDataParam.mk (JsObject []) None None) 0))
    ≠ 1%nat
  ∧ count is_telemetry
      (events (ConnectionRequest.waitUntilActive (P := Demo.active_at 0) 1
                 Demo.request_1 (Some 60) 0))
    ≠ 1%nat.
Proof. repeat split; discriminate. Qed.

(** A nested call brings the callee's event along. *)
Example getRequiredParamsForAuthScheme_events :
  events (Apps.getRequiredParamsForAuthScheme (P := Demo.never_active)
            "github" "OAUTH2" 0)
  = [EvTelemetry "getRequiredParamsForAuthScheme" Apps.fileName
       (ParamsAppIdAuthScheme "github" "OAUTH2");
     EvParse "ZGetRequiredParamsForAuthScheme";
     EvTelemetry "getRequiredParams" Apps.fileName (ParamsAppId "github");
     EvParse "ZGetRequiredParams";
     EvTelemetry "get" Apps.fileName
       (ParamsGetApp (GetAppDataParams.mk "github"));
     EvRequest (getApp "github") false].
Proof. reflexivity. Qed.

(** * Further properties *)

(** ** [Apps] *)

Section AppsEdges.
Context `{P : Platform}.

(** X1. [Apps.list] never resolves to [undefined]: a response without a body,
    or a body without [items], gives the empty list, after the one request
    of the method. *)
Theorem Apps_list_defaults_to_empty w data w' :
  send getApps false w = (inr data, w') →
  data ≫= AppList.items = None →
  Apps.list w
  = mkRun (Ok []) w'
      [EvTelemetry "list" Apps.fileName ParamsNone;
       EvRequest getApps false].
Proof.
  intros Hsend Hitems. unfold Apps.list. unfold_run. rewrite Hsend.
  run_simpl. unfold Apps.items_or_empty.
  destruct data as [d|]; [|done]. cbn in Hitems. by rewrite Hitems.
Qed.

(** X2. A backend that resolves the lookup without a body makes [Apps.get]
    throw the normalized error "App not found"; nothing is requested
    after the lookup. *)
Theorem Apps_get_not_found data w w' :
  send (getApp (GetAppDataParams.appKey data)) false w = (inr None, w') →
  Apps.get data w
  = mkRun (Throw (Normalized (handleAllError (JsError "App not found")))) w'
      [EvTelemetry "get" Apps.fileName (ParamsGetApp data);
       EvRequest (getApp (GetAppDataParams.appKey data)) false].
Proof.
  intros Hsend. unfold Apps.get. unfold_run. by rewrite Hsend.
Qed.

Lemma getRequiredParams_Ok_inv appId w r :
  result (Apps.getRequiredParams appId w) = Ok r →
  ∃ app schemes,
    ZGetRequiredParams_parse appId = None
    ∧ fst (send (getApp appId) false w) = inr (Some app)
    ∧ App.auth_schemes app = Some schemes
    ∧ r = RequiredParamsFull.mk (modesOf schemes)
            (buildAuthSchemesObject schemes).
Proof.
  unfold Apps.getRequiredParams, Apps.get. unfold_run.
  destruct (ZGetRequiredParams_parse appId); run_simpl; [discriminate|].
  destruct (send (getApp appId) false w) as [[reason|[app|]] w1]; run_simpl;
    try discriminate.
  destruct (App.auth_schemes app) as [schemes|] eqn:Hschemes; run_simpl;
    [|discriminate].
  intros [= <-]. by exists app, schemes.
Qed.

Lemma foldl_processScheme_no_own_proto schemes : ∀ obj,
  JsDict.own (foldl processScheme obj schemes) !! "__proto__"
  = JsDict.own obj !! "__proto__".
Proof.
  induction schemes as [|s schemes IH]; intros obj; cbn [foldl]; [done|].
  rewrite IH, processScheme_set. unfold js_set.
  destruct (String.eqb (AuthScheme.mode s) "__proto__") eqn:Hs; cbn;
    [done|].
  apply String.eqb_neq in Hs. by apply lookup_insert_ne.
Qed.

(** X3. Whenever [getRequiredParams] returns, [availableAuthSchemes]
    lists the modes of the app's schemes in their order, one entry per
    scheme; the own keys of [authSchemes] are exactly these modes other
    than ["__proto__"], and [authSchemes] has a summary as prototype
    exactly when some scheme has the mode ["__proto__"]. *)
Theorem getRequiredParams_modes_are_keys appId w r :
  result (Apps.getRequiredParams appId w) = Ok r →
  ∃ app schemes,
    fst (send (getApp appId) false w) = inr (Some app)
    ∧ App.auth_schemes app = Some schemes
    ∧ RequiredParamsFull.availableAuthSchemes r = AuthScheme.mode <$> schemes
    ∧ (∀ m, m ∈ dom (JsDict.own (RequiredParamsFull.authSchemes r))
            ↔ m ∈ RequiredParamsFull.availableAuthSchemes r
              ∧ m ≠ "__proto__")
    ∧ (is_Some (JsDict.proto (RequiredParamsFull.authSchemes r))
       ↔ "__proto__" ∈ RequiredParamsFull.availableAuthSchemes r).
Proof.
  intros Hr.
  destruct (getRequiredParams_Ok_inv _ _ _ Hr)
    as (app & schemes & _ & Hsend & Hschemes & ->).
  exists app, schemes. split; [done|]. split; [done|]. split; [done|].
  cbn. unfold buildAuthSchemesObject. split.
  - intros m. rewrite elem_of_dom.
    destruct (decide (m = "__proto__")) as [->|Hm].
    + rewrite foldl_processScheme_no_own_proto. cbn. rewrite lookup_empty.
      split; [by intros [? ?]|by intros [_ ?]].
    + rewrite foldl_processScheme_own by done. cbn. rewrite lookup_empty.
      rewrite <- (last_with_mode_is_Some m schemes).
      destruct (last_with_mode m schemes) as [s|]; split; try done;
        first [by intros [[? ?] _] | by intros [? ?] | by eexists].
  - rewrite foldl_processScheme_proto. cbn.
    rewrite <- (last_with_mode_is_Some "__proto__" schemes).
    by destruct (last_with_mode "__proto__" schemes).
Qed.

Lemma names_where_sublist p fields :
  names_where p fields `sublist_of` (Field.name <$> fields).
Proof.
  unfold names_where.
  induction fields as [|f fs IH]; simpl; [constructor|].
  destruct (p f); simpl; by constructor.
Qed.

Lemma summarize_permutation fields :
  RequiredParams.required_fields (summarize fields)
  ++ RequiredParams.optional_fields (summarize fields)
  ++ RequiredParams.expected_from_user (summarize fields)
  ≡ₚ Field.name <$> fields.
Proof.
  rewrite summarize_buckets. cbn.
  unfold names_where, goes_required, goes_optional, goes_expected.
  induction fields as [|f fs IH]; simpl; [done|].
  destruct (Field.expected_from_customer f), (Field.required f); simpl.
  - by constructor.
  - by constructor.
  - rewrite app_assoc. symmetry. apply Permutation_cons_app.
    by rewrite <- app_assoc.
  - symmetry. by apply Permutation_cons_app.
Qed.

(** X4. For a scheme whose mode no later scheme of the app carries, the three
    buckets of its summary together hold the field names of the scheme,
    each as often as the scheme lists it, and every bucket keeps the order
    in which the scheme lists them. *)
Theorem getRequiredParams_buckets_partition
    appId w app w' pre s post :
  ZGetRequiredParams_parse appId = None →
  send (getApp appId) false w = (inr (Some app), w') →
  App.auth_schemes app = Some (pre ++ s :: post) →
  AuthScheme.mode s ∉ modesOf post →
  ∃ r b,
    result (Apps.getRequiredParams appId w) = Ok r
    ∧ js_get (RequiredParamsFull.authSchemes r) (AuthScheme.mode s)
      = PSummary b
    ∧ RequiredParams.required_fields b
      ++ RequiredParams.optional_fields b
      ++ RequiredParams.expected_from_user b
      ≡ₚ Field.name <$> AuthScheme.fields s
    ∧ RequiredParams.required_fields b
      `sublist_of` (Field.name <$> AuthScheme.fields s)
    ∧ RequiredParams.optional_fields b
      `sublist_of` (Field.name <$> AuthScheme.fields s)
    ∧ RequiredParams.expected_from_user b
      `sublist_of` (Field.name <$> AuthScheme.fields s).
Proof.
  intros Hparse Hsend Hschemes Hlast.
  eexists _, (summarize (AuthScheme.fields s)).
  split; [by eapply getRequiredParams_returns|].
  split; [by apply buildAuthSchemesObject_last|].
  split; [apply summarize_permutation|].
  rewrite summarize_buckets. cbn.
  repeat split; apply names_where_sublist.
Qed.

(** X5. An app that comes without an [auth_schemes] array makes
    [getRequiredParams] fail with a normalized TypeError, after the one
    lookup. *)
Theorem getRequiredParams_without_auth_schemes appId w app w' :
  ZGetRequiredParams_parse appId = None →
  send (getApp appId) false w = (inr (Some app), w') →
  App.auth_schemes app = None →
  ∃ message,
    Apps.getRequiredParams appId w
    = mkRun (Throw (Normalized (handleAllError (JsTypeError message)))) w'
        [EvTelemetry "getRequiredParams" Apps.fileName (ParamsAppId appId);
         EvParse "ZGetRequiredParams";
         EvTelemetry "get" Apps.fileName
           (ParamsGetApp (GetAppDataParams.mk appId));
         EvRequest (getApp appId) false].
Proof.
  intros Hparse Hsend Hschemes. eexists.
  unfold Apps.getRequiredParams, Apps.get. unfold_run.
  rewrite Hparse. run_simpl. rewrite Hsend. run_simpl.
  by rewrite Hschemes.
Qed.

(** X6. An error of the nested [get] is normalized once more by each method
    it passes through: twice in all when it leaves [getRequiredParams],
    three times when it leaves [getRequiredParamsForAuthScheme]. *)
Theorem getRequiredParams_renormalizes appId authScheme w e :
  ZGetRequiredParams_parse appId = None →
  ZGetRequiredParamsForAuthScheme_parse appId authScheme = None →
  result (Apps.get (GetAppDataParams.mk appId) w) = Throw e →
  result (Apps.getRequiredParams appId w)
  = Throw (Normalized (handleAllError e))
  ∧ result (Apps.getRequiredParamsForAuthScheme appId authScheme w)
    = Throw (Normalized (handleAllError (Normalized (handleAllError e)))).
Proof.
  intros Hparse Hpair Hget.
  assert (result (Apps.getRequiredParams appId w)
          = Throw (Normalized (handleAllError e))) as Hreq.
  { unfold Apps.getRequiredParams.
    revert Hget. generalize (Apps.get (GetAppDataParams.mk appId)).
    intros g Hget. unfold_run. rewrite Hparse. run_simpl.
    destruct (g w) as [[a|e'|] w1 es]; cbn in *; try discriminate.
    by injection Hget as ->. }
  split; [done|].
  by rewrite getRequiredParamsForAuthScheme_result, Hreq.
Qed.

Lemma summarize_by_flags s :
  summarize (AuthScheme.fields s) = summary_by_flags s.
Proof. by rewrite summarize_buckets. Qed.

(** X7. For an app the backend returns, [getRequiredParamsForAuthScheme]
    yields a summary exactly for the modes that the app's schemes carry.
    For any other name it yields what the property read finds up the
    prototype chain: [undefined] when the name is no property of
    [Object.prototype] and no scheme has the mode ["__proto__"]. *)
Theorem getRequiredParamsForAuthScheme_defined_iff
    appId authScheme w app w' schemes :
  ZGetRequiredParamsForAuthScheme_parse appId authScheme = None →
  ZGetRequiredParams_parse appId = None →
  send (getApp appId) false w = (inr (Some app), w') →
  App.auth_schemes app = Some schemes →
  ∃ v,
    result (Apps.getRequiredParamsForAuthScheme appId authScheme w) = Ok v
    ∧ ((∃ b, v = PSummary b) ↔ authScheme ∈ AuthScheme.mode <$> schemes)
    ∧ (authScheme ∉ AuthScheme.mode <$> schemes →
       authScheme ∉ object_prototype_names →
       "__proto__" ∉ AuthScheme.mode <$> schemes →
       v = PUndefined).
Proof.
  intros Hpair Hparse Hsend Hschemes.
  rewrite getRequiredParamsForAuthScheme_result by done.
  erewrite getRequiredParams_returns by done.
  eexists. split; [done|]. cbn.
  rewrite js_get_buildAuthSchemesObject.
  fold (modesOf schemes).
  rewrite <- !last_with_mode_is_Some.
  destruct (last_with_mode authScheme schemes) as [s|] eqn:Hlast.
  - split; [split; by eexists|]. intros Hnone. destruct Hnone. by eexists.
  - split.
    + split; [|by intros [? ?]]. intros [b Hb]. exfalso. revert Hb.
      unfold js_inherited.
      destruct (String.eqb authScheme "__proto__") eqn:Hk.
      * apply String.eqb_eq in Hk as ->. by rewrite Hlast.
      * destruct (_ ≫= _); [done|]. by case_bool_decide.
    + intros _ Hnames Hproto.
      destruct (last_with_mode "__proto__" schemes) as [s|];
        [destruct Hproto; by eexists|].
      unfold object_prototype_names in Hnames.
      apply not_elem_of_cons in Hnames as [Hk Hfun].
      apply String.eqb_neq in Hk. unfold js_inherited. rewrite Hk. cbn.
      by rewrite bool_decide_eq_false_2.
Qed.

(** X8. Whenever [getRequiredParams] returns, the property read
    [authSchemes[m]] is determined as follows. If some scheme of the app
    carries the mode [m], it is the summary of the last such scheme,
    earlier ones leaving no trace: the names of its fields expected from
    the customer, of those neither expected from the customer nor
    required, and of those not expected from the customer and required,
    each in the scheme's order. Otherwise it is what the prototype chain
    holds under [m]: a property of the summary that the last scheme of
    mode ["__proto__"] installed as prototype, if there is one, else a
    property of [Object.prototype], else [undefined]. *)
Theorem getRequiredParams_lookup appId w r m :
  result (Apps.getRequiredParams appId w) = Ok r →
  ∃ app schemes,
    fst (send (getApp appId) false w) = inr (Some app)
    ∧ App.auth_schemes app = Some schemes
    ∧ js_get (RequiredParamsFull.authSchemes r) m
      = match last_with_mode m schemes with
        | Some s => PSummary (summary_by_flags s)
        | None =>
            js_inherited
              (summary_by_flags <$> last_with_mode "__proto__" schemes) m
        end.
Proof.
  intros Hr.
  destruct (getRequiredParams_Ok_inv _ _ _ Hr)
    as (app & schemes & _ & Hsend & Hschemes & ->).
  exists app, schemes. repeat split; try done. cbn.
  rewrite js_get_buildAuthSchemesObject.
  destruct (last_with_mode m schemes) as [s|];
    [by rewrite summarize_by_flags|].
  destruct (last_with_mode "__proto__" schemes) as [s|]; [|done].
  cbn. by rewrite summarize_by_flags.
Qed.
End AppsEdges.

Lemma Apps_list_defaults_to_empty_witness :
  Apps.list (P := Script.silent) 0
  = mkRun (P := Script.silent) (Ok []) 10
      [EvTelemetry "list" Apps.fileName ParamsNone;
       EvRequest getApps false].
Proof.
  apply (Apps_list_defaults_to_empty (P := Script.silent) 0 None 10);
    reflexivity.
Defined.

Lemma Apps_get_not_found_witness :
  Apps.get (P := Demo.never_active) (GetAppDataParams.mk "nope") 0
  = mkRun (P := Demo.never_active) (Throw (Normalized "App not found")) 10
      [EvTelemetry "get" Apps.fileName
         (ParamsGetApp (GetAppDataParams.mk "nope"));
       EvRequest (getApp "nope") false].
Proof.
  apply (Apps_get_not_found (P := Demo.never_active)
           (GetAppDataParams.mk "nope") 0 10).
  reflexivity.
Defined.

Lemma getRequiredParams_modes_are_keys_witness :
  ∃ app schemes,
    fst (@send Script.prototyped (getApp "proto") false 0) = inr (Some app)
    ∧ App.auth_schemes app = Some schemes
    ∧ ["__proto__"; "API_KEY"] = AuthScheme.mode <$> schemes
    ∧ (∀ m, m ∈ dom ({["API_KEY" := RequiredParams.mk ["api_key"] [] []]}
                       : gmap string RequiredParams.t)
            ↔ m ∈ ["__proto__"; "API_KEY"] ∧ m ≠ "__proto__")
    ∧ (is_Some (Some (RequiredParams.mk [] [] ["token"]))
       ↔ "__proto__" ∈ ["__proto__"; "API_KEY"]).
Proof.
  exact (getRequiredParams_modes_are_keys (P := Script.prototyped) "proto" 0
           (RequiredParamsFull.mk ["__proto__"; "API_KEY"]
              (JsDict.mk {["API_KEY" := RequiredParams.mk ["api_key"] [] []]}
                 (Some (RequiredParams.mk [] [] ["token"]))))
           eq_refl).
Defined.

Lemma getRequiredParams_buckets_partition_witness :
  ∃ r b,
    result (Apps.getRequiredParams (P := Demo.never_active) "names" 0) = Ok r
    ∧ js_get (RequiredParamsFull.authSchemes r) "API_KEY" = PSummary b
    ∧ RequiredParams.required_fields b
      ++ RequiredParams.optional_fields b
      ++ RequiredParams.expected_from_user b
      ≡ₚ ["token"; "token"]
    ∧ RequiredParams.required_fields b `sublist_of` ["token"; "token"]
    ∧ RequiredParams.optional_fields b `sublist_of` ["token"; "token"]
    ∧ RequiredParams.expected_from_user b `sublist_of` ["token"; "token"].
Proof.
  apply (getRequiredParams_buckets_partition (P := Demo.never_active)
           "names" 0 Demo.twin_names 10 []
           (AuthScheme.mk "API_KEY" [Demo.token_setup; Demo.token_user]) []).
  - reflexivity.
  - reflexivity.
  - reflexivity.
  - apply not_elem_of_nil.
Defined.

Lemma getRequiredParams_without_auth_schemes_witness :
  ∃ message,
    Apps.getRequiredParams (P := Script.bare) "bare" 0
    = mkRun (P := Script.bare) (Throw (Normalized message)) 10
        [EvTelemetry "getRequiredParams" Apps.fileName (ParamsAppId "bare");
         EvParse "ZGetRequiredParams";
         EvTelemetry "get" Apps.fileName
           (ParamsGetApp (GetAppDataParams.mk "bare"));
         EvRequest (getApp "bare") false].
Proof.
  destruct (getRequiredParams_without_auth_schemes (P := Script.bare)
              "bare" 0 Script.bare_app 10) as [message Hrun];
    [reflexivity..|].
  exists message. exact Hrun.
Defined.

Lemma getRequiredParams_renormalizes_witness :
  result (Apps.getRequiredParams (P := Demo.never_active) "nope" 0)
  = Throw (Normalized "App not found")
  ∧ result (Apps.getRequiredParamsForAuthScheme (P := Demo.never_active)
              "nope" "OAUTH2" 0)
    = Throw (Normalized "App not found").
Proof.
  apply (getRequiredParams_renormalizes (P := Demo.never_active)
           "nope" "OAUTH2" 0 (Normalized "App not found"));
    reflexivity.
Defined.

Lemma getRequiredParamsForAuthScheme_defined_iff_witness :
  ∃ v,
    result (Apps.getRequiredParamsForAuthScheme (P := Demo.never_active)
              "github" "BASIC" 0) = Ok v
    ∧ ((∃ b, v = PSummary b) ↔ "BASIC" ∈ ["OAUTH2"; "API_KEY"])
    ∧ v = PUndefined.
Proof.
  destruct (getRequiredParamsForAuthScheme_defined_iff
              (P := Demo.never_active)
              "github" "BASIC" 0 Demo.github 10
              [AuthScheme.mk "OAUTH2" [Demo.token_setup; Demo.subdomain];
               AuthScheme.mk "API_KEY" [Demo.api_key]])
    as (v & Hv & Hiff & Hundef); [reflexivity..|].
  exists v. split; [exact Hv|]. split; [exact Hiff|].
  apply Hundef.
  - apply (bool_decide_eq_false_1
             ("BASIC" ∈ AuthScheme.mode <$>
                [AuthScheme.mk "OAUTH2" [Demo.token_setup; Demo.subdomain];
                 AuthScheme.mk "API_KEY" [Demo.api_key]])).
    reflexivity.
  - apply (bool_decide_eq_false_1 ("BASIC" ∈ object_prototype_names)).
    reflexivity.
  - apply (bool_decide_eq_false_1
             ("__proto__" ∈ AuthScheme.mode <$>
                [AuthScheme.mk "OAUTH2" [Demo.token_setup; Demo.subdomain];
                 AuthScheme.mk "API_KEY" [Demo.api_key]])).
    reflexivity.
Defined.

Lemma getRequiredParams_lookup_witness :
  ∃ app schemes,
    fst (@send Script.prototyped (getApp "proto") false 0) = inr (Some app)
    ∧ App.auth_schemes app = Some schemes
    ∧ js_get
        (JsDict.mk {["API_KEY" := RequiredParams.mk ["api_key"] [] []]}
           (Some (RequiredParams.mk [] [] ["token"])))
        "expected_from_user"
      = match last_with_mode "expected_from_user" schemes with
        | Some s => PSummary (summary_by_flags s)
        | None =>
            js_inherited
              (summary_by_flags <$> last_with_mode "__proto__" schemes)
              "expected_from_user"
        end.
Proof.
  exact (getRequiredParams_lookup (P := Script.prototyped) "proto" 0
           (RequiredParamsFull.mk ["__proto__"; "API_KEY"]
              (JsDict.mk {["API_KEY" := RequiredParams.mk ["api_key"] [] []]}
                 (Some (RequiredParams.mk [] [] ["token"]))))
           "expected_from_user" eq_refl).
Defined.

(** Reads on the result for an app with a scheme of mode ["__proto__"]:
    the summary of that scheme under ["__proto__"], one of its arrays under
    a bucket name, an inherited function, and [undefined]. *)
Example getRequiredParamsForAuthScheme_prototype_reads :
  result (Apps.getRequiredParamsForAuthScheme (P := Script.prototyped)
            "proto" "__proto__" 0)
  = Ok (PSummary (RequiredParams.mk [] [] ["token"]))
  ∧ result (Apps.getRequiredParamsForAuthScheme (P := Script.prototyped)
              "proto" "expected_from_user" 0)
    = Ok (PNames ["token"])
  ∧ result (Apps.getRequiredParamsForAuthScheme (P := Script.prototyped)
              "proto" "toString" 0)
    = Ok (PBuiltin "toString")
  ∧ result (Apps.getRequiredParamsForAuthScheme (P := Script.prototyped)
              "proto" "BASIC" 0)
    = Ok PUndefined.
Proof. repeat split. Qed.

(** ** [ConnectedAccounts] *)

Section AccountsEdges.
Context `{P : Platform}.

(** X9. When the initiate-connection request of [create] is rejected or
    resolves without a body, [create] throws a normalized error after this
    one request: the rejection's reason, or the TypeError of reading a
    property of [undefined]. *)
Theorem create_fails_without_body data w a w' :
  send (initiateConnection (BodyPayload data)) true w = (a, w') →
  (∀ res, a ≠ inr (Some res)) →
  ∃ e0,
    ConnectedAccounts.create data w
    = mkRun (Throw (Normalized (handleAllError e0))) w'
        [EvTelemetry "create" ConnectedAccounts.fileName (ParamsData data);
         EvRequest (initiateConnection (BodyPayload data)) true]
    ∧ match a with
      | inl reason => e0 = Rejected reason
      | inr _ => ∃ message, e0 = JsTypeError message
      end.
Proof.
  intros Hsend Hbody. unfold ConnectedAccounts.create. unfold_run.
  rewrite Hsend. destruct a as [reason|[res|]]; run_simpl.
  - by eexists.
  - by destruct (Hbody res).
  - eexists. split; [done|]. by eexists.
Qed.

(** X10. With an [integrationId] in the payload, [initiate] uses it as it is:
    no clock read, no app lookup and no integration, whatever [appName],
    [authMode] and [authConfig] say. The one request carries the id, the
    entity id (["default"] when left out) and the data ([{}] when left
    out); the request object takes the properties of the response
    unchanged, all of them [undefined] when the response has no body. *)
Theorem initiate_uses_given_integrationId payload w res w' :
  truthy_str (InitiateConnectionDataReq.integrationId payload) = true →
  send (initiateConnection
          (BodyInitiate
             (InitiateConnectionDataReq.integrationId payload)
             (default "default" (InitiateConnectionDataReq.entityId payload))
             (InitiateConnectionDataReq.labels payload)
             (InitiateConnectionDataReq.redirectUri payload)
             (default (JsObject []) (InitiateConnectionDataReq.data payload))))
       false w
  = (inr res, w') →
  ConnectedAccounts.initiate payload w
  = mkRun
      (Ok match res with
          | Some res =>
              ConnectionRequest.mk
                (JSome (InitiateConnectionResponse.connectionStatus res))
                (JSome (InitiateConnectionResponse.connectedAccountId res))
                (InitiateConnectionResponse.redirectUrl res)
          | None => ConnectionRequest.mk JUndefined JUndefined JUndefined
          end)
      w'
      [EvTelemetry "initiate" ConnectedAccounts.fileName
         (ParamsPayload payload);
       EvRequest
         (initiateConnection
            (BodyInitiate
               (InitiateConnectionDataReq.integrationId payload)
               (default "default" (InitiateConnectionDataReq.entityId payload))
               (InitiateConnectionDataReq.labels payload)
               (InitiateConnectionDataReq.redirectUri payload)
               (default (JsObject [])
                  (InitiateConnectionDataReq.data payload))))
         false].
Proof.
  intros Hid Hsend.
  unfold ConnectedAccounts.initiate, ConnectedAccounts.initiate_try.
  rewrite Hid. cbn [negb andb]. unfold_run. rewrite Hsend. run_simpl.
  by destruct res.
Qed.

(** X11. Without [integrationId] and with an [authMode], a payload that lacks
    [appName], or has it and lacks [authConfig], makes [initiate] throw the
    normalized error naming that property, before any request and before
    any integration is created. *)
Theorem initiate_missing_field payload w :
  truthy_str (InitiateConnectionDataReq.integrationId payload) = false →
  truthy_str (InitiateConnectionDataReq.authMode payload) = true →
  truthy_str (InitiateConnectionDataReq.appName payload) = false
  ∨ InitiateConnectionDataReq.authConfig payload = None →
  result (ConnectedAccounts.initiate payload w)
  = Throw (Normalized (handleAllError (JsError
      (if truthy_str (InitiateConnectionDataReq.appName payload)
       then "authConfig is required when integrationId is not provided"
       else "appName is required when integrationId is not provided"))))
  ∧ events (ConnectedAccounts.initiate payload w)
    = [EvTelemetry "initiate" ConnectedAccounts.fileName
         (ParamsPayload payload);
       EvDateNow].
Proof.
  intros Hid Hmode Hmissing.
  unfold ConnectedAccounts.initiate, ConnectedAccounts.initiate_try,
    ConnectedAccounts.require_str, ConnectedAccounts.require_obj.
  rewrite Hid, Hmode. cbn [negb andb]. unfold_run.
  destruct (date_now w) as [t w1]. run_simpl.
  destruct (truthy_str (InitiateConnectionDataReq.appName payload));
    run_simpl; [|done].
  destruct Hmissing as [Hname|Hconfig]; [done|].
  by rewrite Hconfig.
Qed.

(** X12. The path that creates an integration: without [integrationId] and
    with [authMode], [appName] and a truthy [authConfig], [initiate] reads
    the clock, looks the app up, creates an integration named
    ["integration_"] followed by the ISO timestamp without its [-], [:]
    and [.], for the app's id, with [authMode] as scheme and
    [useComposioAuth] off, and then initiates the connection with the id
    of that integration ([undefined] when none came back). *)
Theorem initiate_creates_integration_then_connects
    payload w authMode appName authConfig t w1 app w2 integration w3 :
  truthy_str (InitiateConnectionDataReq.integrationId payload) = false →
  InitiateConnectionDataReq.authMode payload = Some authMode →
  authMode ≠ "" →
  InitiateConnectionDataReq.appName payload = Some appName →
  appName ≠ "" →
  InitiateConnectionDataReq.authConfig payload = Some authConfig →
  truthy_js authConfig = true →
  date_now w = (t, w1) →
  send (getApp appName) false w1 = (inr (Some app), w2) →
  integrations_create
    (CreateIntegration.mk (App.appId app)
       (String.append "integration_" (strip_separators (toISOString t)))
       authMode authConfig false) w2
  = (inr integration, w3) →
  events (ConnectedAccounts.initiate payload w)
  = [EvTelemetry "initiate" ConnectedAccounts.fileName
       (ParamsPayload payload);
     EvDateNow;
     EvTelemetry "get" Apps.fileName
       (ParamsGetApp (GetAppDataParams.mk appName));
     EvRequest (getApp appName) false;
     EvIntegrationsCreate
       (CreateIntegration.mk (App.appId app)
          (String.append "integration_" (strip_separators (toISOString t)))
          authMode authConfig false);
     EvRequest
       (initiateConnection
          (BodyInitiate
             (integration ≫= Integration.id)
             (default "default" (InitiateConnectionDataReq.entityId payload))
             (InitiateConnectionDataReq.labels payload)
             (InitiateConnectionDataReq.redirectUri payload)
             (default (JsObject []) (InitiateConnectionDataReq.data payload))))
       false].
Proof.
  intros Hid Hmode Hmode_ne Hname Hname_ne Hconfig Htruthy Hnow Happ Hint.
  apply String.eqb_neq in Hmode_ne, Hname_ne.
  unfold ConnectedAccounts.initiate, ConnectedAccounts.initiate_try,
    ConnectedAccounts.require_str, ConnectedAccounts.require_obj, Apps.get.
  rewrite Hid, Hmode, Hname, Hconfig. unfold truthy_str, truthy_obj.
  rewrite Hmode_ne, Hname_ne, Htruthy.
  cbn [negb andb default from_option id].
  unfold_run. rewrite Hnow. run_simpl. rewrite Happ. run_simpl.
  rewrite Hint. run_simpl.
  by destruct (send _ false w3) as [[?|[?|]] ?].
Qed.

(** X13. When the app lookup of that path (no [integrationId]; [authMode],
    [appName] and a truthy [authConfig] given) fails, [initiate] stops
    there: it throws the lookup's error, normalized once more, and its run
    ends with the events of the lookup, so no integration is created and
    no connection initiated. *)
Theorem initiate_stops_at_failed_lookup
    payload w appName authConfig t w1 e :
  truthy_str (InitiateConnectionDataReq.integrationId payload) = false →
  truthy_str (InitiateConnectionDataReq.authMode payload) = true →
  InitiateConnectionDataReq.appName payload = Some appName →
  appName ≠ "" →
  InitiateConnectionDataReq.authConfig payload = Some authConfig →
  truthy_js authConfig = true →
  date_now w = (t, w1) →
  result (Apps.get (GetAppDataParams.mk appName) w1) = Throw e →
  ConnectedAccounts.initiate payload w
  = mkRun (Throw (Normalized (handleAllError e)))
      (world (Apps.get (GetAppDataParams.mk appName) w1))
      ([EvTelemetry "initiate" ConnectedAccounts.fileName
          (ParamsPayload payload);
        EvDateNow]
       ++ events (Apps.get (GetAppDataParams.mk appName) w1)).
Proof.
  intros Hid Hmode Hname Hname_ne Hconfig Htruthy Hnow.
  apply String.eqb_neq in Hname_ne.
  unfold ConnectedAccounts.initiate, ConnectedAccounts.initiate_try,
    ConnectedAccounts.require_str, ConnectedAccounts.require_obj.
  rewrite Hid, Hmode, Hname, Hconfig. unfold truthy_str at 1, truthy_obj.
  rewrite Hname_ne, Htruthy. cbn [negb andb].
  change (default "" (Some appName)) with appName. intros Hget.
  unfold bind, try_catch, manualTelemetry, now, emit, ret, throw,
    integrationsCreate, call.
  cbn -[Apps.get]. rewrite Hnow. cbn -[Apps.get].
  destruct (Apps.get (GetAppDataParams.mk appName) w1) as [[a|e'|] w2 es];
    cbn in *; try discriminate.
  by injection Hget as ->.
Qed.

End AccountsEdges.

Lemma create_fails_without_body_witness :
  ∃ e0,
    ConnectedAccounts.create (P := Script.silent) (JsObject []) 0
    = mkRun (P := Script.silent) (Throw (Normalized (Demo.normalize e0))) 10
        [EvTelemetry "create" ConnectedAccounts.fileName
           (ParamsData (JsObject []));
         EvRequest (initiateConnection (BodyPayload (JsObject []))) true]
    ∧ ∃ message, e0 = JsTypeError message.
Proof.
  apply (create_fails_without_body (P := Script.silent) (JsObject []) 0
           (inr None) 10).
  - reflexivity.
  - intros res. discriminate.
Defined.

Lemma initiate_uses_given_integrationId_witness :
  ConnectedAccounts.initiate (P := Demo.never_active)
    (InitiateConnectionDataReq.mk None None None (Some "int_9") None
       (Some "OAUTH2") None (Some "github")) 0
  = mkRun (P := Demo.never_active)
      (Ok (ConnectionRequest.mk (JSome "INITIATED") (JSome "acc_1")
             (JSome "https://backend.example/redirect")))
      10
      [EvTelemetry "initiate" ConnectedAccounts.fileName
         (ParamsPayload
            (InitiateConnectionDataReq.mk None None None (Some "int_9") None
               (Some "OAUTH2") None (Some "github")));
       EvRequest
         (initiateConnection
            (BodyInitiate (Some "int_9") "default" None None (JsObject [])))
         false].
Proof.
  apply (initiate_uses_given_integrationId (P := Demo.never_active)
           (InitiateConnectionDataReq.mk None None None (Some "int_9") None
              (Some "OAUTH2") None (Some "github"))
           0 (Some Demo.initiated) 10);
    reflexivity.
Defined.

Lemma initiate_missing_field_witness :
  result (ConnectedAccounts.initiate (P := Demo.never_active)
            (InitiateConnectionDataReq.mk None None None None None
               (Some "OAUTH2") None (Some "github")) 0)
  = Throw (Normalized
             "authConfig is required when integrationId is not provided")
  ∧ events (ConnectedAccounts.initiate (P := Demo.never_active)
              (InitiateConnectionDataReq.mk None None None None None
                 (Some "OAUTH2") None (Some "github")) 0)
    = [EvTelemetry "initiate" ConnectedAccounts.fileName
         (ParamsPayload
            (InitiateConnectionDataReq.mk None None None None None
               (Some "OAUTH2") None (Some "github")));
       EvDateNow].
Proof.
  apply (initiate_missing_field (P := Demo.never_active)
           (InitiateConnectionDataReq.mk None None None None None
              (Some "OAUTH2") None (Some "github")) 0).
  - reflexivity.
  - reflexivity.
  - right. reflexivity.
Defined.

Lemma initiate_creates_integration_then_connects_witness :
  events (ConnectedAccounts.initiate (P := Demo.never_active)
            (InitiateConnectionDataReq.mk None (Some "user_7") None None None
               (Some "OAUTH2") (Some (JsObject [])) (Some "github")) 0)
  = [EvTelemetry "initiate" ConnectedAccounts.fileName
       (ParamsPayload
          (InitiateConnectionDataReq.mk None (Some "user_7") None None None
             (Some "OAUTH2") (Some (JsObject [])) (Some "github")));
     EvDateNow;
     EvTelemetry "get" Apps.fileName
       (ParamsGetApp (GetAppDataParams.mk "github"));
     EvRequest (getApp "github") false;
     EvIntegrationsCreate
       (CreateIntegration.mk (Some "app_github")
          "integration_20240506T070809010Z" "OAUTH2" (JsObject []) false);
     EvRequest
       (initiateConnection
          (BodyInitiate (Some "int_new") "user_7" None None (JsObject [])))
       false].
Proof.
  apply (initiate_creates_integration_then_connects (P := Demo.never_active)
           (InitiateConnectionDataReq.mk None (Some "user_7") None None None
              (Some "OAUTH2") (Some (JsObject [])) (Some "github"))
           0 "OAUTH2" "github" (JsObject []) 0 0 Demo.github 10
           (Some (Integration.mk (Some "int_new"))) 20);
    try reflexivity; discriminate.
Defined.

Lemma initiate_stops_at_failed_lookup_witness :
  ConnectedAccounts.initiate (P := Demo.never_active)
    (InitiateConnectionDataReq.mk None None None None None
       (Some "OAUTH2") (Some (JsObject [])) (Some "nope")) 0
  = mkRun (P := Demo.never_active) (Throw (Normalized "App not found")) 10
      [EvTelemetry "initiate" ConnectedAccounts.fileName
         (ParamsPayload
            (InitiateConnectionDataReq.mk None None None None None
               (Some "OAUTH2") (Some (JsObject [])) (Some "nope")));
       EvDateNow;
       EvTelemetry "get" Apps.fileName
         (ParamsGetApp (GetAppDataParams.mk "nope"));
       EvRequest (getApp "nope") false].
Proof.
  apply (initiate_stops_at_failed_lookup (P := Demo.never_active)
           (InitiateConnectionDataReq.mk None None None None None
              (Some "OAUTH2") (Some (JsObject [])) (Some "nope"))
           0 "nope" (JsObject []) 0 0 (Normalized "App not found"));
    try reflexivity; discriminate.
Defined.


(** ** The timestamp in the integration name *)

Lemma strip_separators_clean s :
  Forall (λ c, is_separator c = false)
    (list_ascii_of_string (strip_separators s)).
Proof.
  induction s as [|c s IH]; simpl; [constructor|].
  fold (is_separator c). destruct (is_separator c) eqn:Hc; simpl; [done|].
  by constructor.
Qed.

Lemma strip_separators_id s :
  Forall (λ c, is_separator c = false) (list_ascii_of_string s) →
  strip_separators s = s.
Proof.
  induction s as [|c s IH]; simpl; [done|].
  intros Hs. apply Forall_cons in Hs as [Hc Hs].
  fold (is_separator c). rewrite Hc. by rewrite IH.
Qed.

(** X14. [replace(/[-:.]/g, "")] leaves none of the three characters behind,
    drops nothing else (a string without them comes back unchanged, so
    stripping twice is stripping once), distributes over concatenation and
    never makes the string longer. *)
Theorem strip_separators_spec s s' :
  Forall (λ c, is_separator c = false)
    (list_ascii_of_string (strip_separators s))
  ∧ strip_separators (strip_separators s) = strip_separators s
  ∧ strip_separators (String.append s s')
    = String.append (strip_separators s) (strip_separators s')
  ∧ (String.length (strip_separators s) ≤ String.length s)%nat.
Proof.
  split; [apply strip_separators_clean|].
  split; [apply strip_separators_id, strip_separators_clean|].
  split.
  - induction s as [|c s IH]; simpl; [done|].
    destruct (_ || _ || _)%bool; simpl; by rewrite IH.
  - induction s as [|c s IH]; simpl; [done|].
    destruct (_ || _ || _)%bool; simpl; lia.
Qed.

(** ** [ConnectionRequest] *)

Section RequestEdges.
Context `{P : Platform}.

(** X16. When the connected account of the request is gone, or its fetch is
    rejected, [saveUserAccessData] throws the normalized error after this
    one request: no connection is initiated. *)
Theorem saveUserAccessData_stops_without_account this data w a w' :
  ZSaveUserAccessDataParam_parse data = None →
  send (getConnection (ConnectionRequest.connectedAccountId this)) false w
  = (a, w') →
  (∀ c, a ≠ inr (Some c)) →
  ConnectionRequest.saveUserAccessData this data w
  = mkRun
      (Throw (Normalized (handleAllError
         match a with
         | inl reason => Rejected reason
         | inr _ => JsError "Connected account not found"
         end)))
      w'
      [EvParse "ZSaveUserAccessDataParam";
       EvRequest (getConnection (ConnectionRequest.connectedAccountId this))
         false].
Proof.
  intros Hparse Hsend Hgone. unfold ConnectionRequest.saveUserAccessData.
  unfold_run. rewrite Hparse. run_simpl. rewrite Hsend.
  destruct a as [reason|[c|]]; run_simpl; try done.
  by destruct (Hgone c).
Qed.

(** X17. For an account the backend still has, [saveUserAccessData] initiates
    a connection on the account's integration, with the caller's field
    inputs as data, the caller's redirect URL, and the caller's entity id
    under both [userUuid] and [entityId]; it resolves to the response object
    of that second request, whole, whose [data] is the body the backend
    answered with. *)
Theorem saveUserAccessData_reuses_integration
    this data w account w1 answer w2 :
  ZSaveUserAccessDataParam_parse data = None →
  send (getConnection (ConnectionRequest.connectedAccountId this)) false w
  = (inr (Some account), w1) →
  send (initiateConnection
          (BodySave (Connection.integrationId account)
             (SaveUserAccessDataParam.fieldInputs data)
             (SaveUserAccessDataParam.redirectUrl data)
             (SaveUserAccessDataParam.entityId data)
             (SaveUserAccessDataParam.entityId data))) false w1
  = (inr answer, w2) →
  ConnectionRequest.saveUserAccessData this data w
  = mkRun (Ok (ClientResult.mk answer)) w2
      [EvParse "ZSaveUserAccessDataParam";
       EvRequest (getConnection (ConnectionRequest.connectedAccountId this))
         false;
       EvRequest
         (initiateConnection
            (BodySave (Connection.integrationId account)
               (SaveUserAccessDataParam.fieldInputs data)
               (SaveUserAccessDataParam.redirectUrl data)
               (SaveUserAccessDataParam.entityId data)
               (SaveUserAccessDataParam.entityId data))) false].
Proof.
  intros Hparse Hget Hinit. unfold ConnectionRequest.saveUserAccessData.
  unfold_run. rewrite Hparse. run_simpl. rewrite Hget. run_simpl.
  by rewrite Hinit.
Qed.

Lemma waitUntilActive_loop_trace fuel : ∀ this startTime timeout w,
  ∃ res w' es,
    ConnectionRequest.waitUntilActive_loop fuel this startTime timeout w
    = mkRun res w' es
    ∧ Forall (is_poll_event this) es
    ∧ (count is_sleep es ≤ count is_request es ≤ S (count is_sleep es))%nat
    ∧ (∀ c, res = Ok c → count is_request es = S (count is_sleep es))
    ∧ (res = Throw (JsError timeout_message) →
       count is_request es = count is_sleep es).
Proof.
  unfold timeout_message.
  induction fuel as [|fuel IH]; intros this startTime timeout w;
    cbn [ConnectionRequest.waitUntilActive_loop].
  - eexists _, _, _. split; [reflexivity|].
    unfold count. cbn. poll_counts.
  - unfold bind at 1, now at 1. destruct (date_now w) as [t w1].
    destruct (t - startTime <? timeout * 1000).
    2: { eexists _, _, _. split; [reflexivity|]. unfold count. cbn.
         poll_counts. }
    unfold bind at 1, call at 1.
    destruct (send _ false w1) as [[reason|[connection|]] w2].
    + eexists _, _, _. split; [reflexivity|]. unfold count. cbn.
      poll_counts.
    + destruct (String.eqb (Connection.status connection) "ACTIVE").
      * eexists _, _, _. split; [reflexivity|]. unfold count. cbn.
        poll_counts.
      * unfold bind at 1, setTimeout at 1.
        destruct (IH this startTime timeout (sleep 1000 w2))
          as (res & w' & es & -> & Hall & Hle & Hok & Hout).
        eexists _, _, _. split; [reflexivity|]. unfold count in *. cbn.
        split; [poll_events|]. split; [lia|]. split.
        -- intros c Hc. specialize (Hok c Hc). lia.
        -- intros Hc. specialize (Hout Hc). lia.
    + eexists _, _, _. split; [reflexivity|]. unfold count. cbn.
      poll_counts.
Qed.

Lemma waitUntilActive_run_trace fuel this timeout w :
  ∃ res w' es,
    ConnectionRequest.waitUntilActive fuel this timeout w = mkRun res w' es
    ∧ Forall (is_poll_event this) es
    ∧ (count is_sleep es ≤ count is_request es ≤ S (count is_sleep es))%nat
    ∧ (∀ c, res = Ok c → count is_request es = S (count is_sleep es)).
Proof.
  unfold ConnectionRequest.waitUntilActive.
  unfold try_catch, bind at 1, now at 1.
  destruct (date_now w) as [t0 w0].
  destruct (waitUntilActive_loop_trace fuel this t0 (default 60 timeout) w0)
    as (res & w' & es & -> & Hall & Hle & Hok & _).
  unfold count in *.
  destruct res as [c|e|]; eexists _, _, _; (split; [reflexivity|]); cbn;
    (split; [poll_events|split; [lia|]]); intros c' Hc';
    try discriminate.
  specialize (Hok c eq_refl). lia.
Qed.

(** X18. Whatever the backend and the clock do, [waitUntilActive] does nothing
    but read the clock, fetch the request's own connected account and
    sleep one second; it never sleeps before having fetched, fetches at
    most once more than it sleeps, and when it returns a connection its
    last fetch was not followed by a sleep. *)
Theorem waitUntilActive_trace fuel this timeout w :
  Forall (is_poll_event this)
    (events (ConnectionRequest.waitUntilActive fuel this timeout w))
  ∧ (count is_sleep
       (events (ConnectionRequest.waitUntilActive fuel this timeout w))
     ≤ count is_request
         (events (ConnectionRequest.waitUntilActive fuel this timeout w))
     ≤ S (count is_sleep
            (events (ConnectionRequest.waitUntilActive fuel this timeout w))))%nat
  ∧ (∀ c,
       result (ConnectionRequest.waitUntilActive fuel this timeout w) = Ok c →
       count is_request
         (events (ConnectionRequest.waitUntilActive fuel this timeout w))
       = S (count is_sleep
              (events (ConnectionRequest.waitUntilActive fuel this timeout w)))).
Proof.
  destruct (waitUntilActive_run_trace fuel this timeout w)
    as (res & w' & es & -> & Hall & Hle & Hok).
  cbn [events result]. exact (conj Hall (conj Hle Hok)).
Qed.

(** X19. With a timeout of zero or less and a clock that does not run
    backwards between its first two reads, [waitUntilActive] fails with
    the normalized timeout error without fetching the account at all. *)
Theorem waitUntilActive_nonpositive_timeout
    fuel this timeout w t0 w1 t1 w2 :
  timeout ≤ 0 →
  date_now w = (t0, w1) →
  date_now w1 = (t1, w2) →
  t0 ≤ t1 →
  ConnectionRequest.waitUntilActive (S fuel) this (Some timeout) w
  = mkRun
      (Throw (Normalized (handleAllError (JsError
         "Connection did not become active within the timeout period."))))
      w2 [EvDateNow; EvDateNow].
Proof.
  intros Htimeout Hstart Hnow Hclock.
  unfold ConnectionRequest.waitUntilActive.
  change (default 60 (Some timeout)) with timeout.
  cbn [ConnectionRequest.waitUntilActive_loop]. unfold_run.
  rewrite Hstart. run_simpl. rewrite Hnow. run_simpl.
  assert ((t1 - t0 <? timeout * 1000) = false) as ->
    by (apply Z.ltb_ge; lia).
  done.
Qed.

(** X20. A fetch that is rejected, or that finds the account gone, ends the
    wait at once: no sleep, no retry. Here for the first fetch. *)
Theorem waitUntilActive_stops_on_failed_fetch
    fuel this timeout w t0 w1 t1 w2 a w3 :
  date_now w = (t0, w1) →
  date_now w1 = (t1, w2) →
  t1 - t0 < timeout * 1000 →
  send (getConnection (ConnectionRequest.connectedAccountId this)) false w2
  = (a, w3) →
  (∀ c, a ≠ inr (Some c)) →
  ConnectionRequest.waitUntilActive (S fuel) this (Some timeout) w
  = mkRun
      (Throw (Normalized (handleAllError
         match a with
         | inl reason => Rejected reason
         | inr _ => JsError "Connected account not found"
         end)))
      w3
      [EvDateNow; EvDateNow;
       EvRequest (getConnection (ConnectionRequest.connectedAccountId this))
         false].
Proof.
  intros Hstart Hnow Hlt Hsend Hgone. apply Z.ltb_lt in Hlt.
  unfold ConnectionRequest.waitUntilActive.
  change (default 60 (Some timeout)) with timeout.
  cbn [ConnectionRequest.waitUntilActive_loop]. unfold_run.
  rewrite Hstart. run_simpl. rewrite Hnow. run_simpl.
  rewrite Hlt. run_simpl. rewrite Hsend.
  destruct a as [reason|[c|]]; run_simpl; try done.
  by destruct (Hgone c).
Qed.
End RequestEdges.

Lemma saveUserAccessData_stops_without_account_witness :
  ConnectionRequest.saveUserAccessData (P := Script.silent) Demo.request_1
    (SaveUserAccessDataParam.mk (JsObject []) None None) 0
  = mkRun (P := Script.silent)
      (Throw (Normalized "Connected account not found")) 10
      [EvParse "ZSaveUserAccessDataParam";
       EvRequest (getConnection (JSome "acc_1")) false].
Proof.
  apply (saveUserAccessData_stops_without_account (P := Script.silent)
           Demo.request_1
           (SaveUserAccessDataParam.mk (JsObject []) None None)
           0 (inr None) 10).
  - reflexivity.
  - reflexivity.
  - intros c. discriminate.
Defined.

Lemma saveUserAccessData_reuses_integration_witness :
  ConnectionRequest.saveUserAccessData (P := Demo.never_active) Demo.request_1
    (SaveUserAccessDataParam.mk (JsObject [("api_key", JsString "k")])
       (Some "https://app.example/back") (Some "user_7")) 0
  = mkRun (P := Demo.never_active)
      (Ok (ClientResult.mk (Some Demo.initiated))) 20
      [EvParse "ZSaveUserAccessDataParam";
       EvRequest (getConnection (JSome "acc_1")) false;
       EvRequest
         (initiateConnection
            (BodySave "int_1" (JsObject [("api_key", JsString "k")])
               (Some "https://app.example/back")
               (Some "user_7") (Some "user_7"))) false].
Proof.
  apply (saveUserAccessData_reuses_integration (P := Demo.never_active)
           Demo.request_1
           (SaveUserAccessDataParam.mk (JsObject [("api_key", JsString "k")])
              (Some "https://app.example/back") (Some "user_7"))
           0 (Connection.mk "acc_1" "int_1" "INITIATED") 10
           (Some Demo.initiated) 20);
    reflexivity.
Defined.

Lemma waitUntilActive_trace_witness :
  result (ConnectionRequest.waitUntilActive (P := Demo.active_at 1500) 5
            Demo.request_1 None 0)
  = Ok (Connection.mk "acc_1" "int_1" "ACTIVE")
  ∧ count is_request
      (events (ConnectionRequest.waitUntilActive (P := Demo.active_at 1500) 5
                 Demo.request_1 None 0))
    = S (count is_sleep
           (events (ConnectionRequest.waitUntilActive
                      (P := Demo.active_at 1500) 5 Demo.request_1 None 0))).
Proof.
  split; [reflexivity|].
  apply (proj2 (proj2 (waitUntilActive_trace (P := Demo.active_at 1500) 5
                         Demo.request_1 None 0))
           (Connection.mk "acc_1" "int_1" "ACTIVE")).
  reflexivity.
Defined.

Lemma waitUntilActive_nonpositive_timeout_witness :
  ConnectionRequest.waitUntilActive (P := Demo.active_at 0) 1
    Demo.request_1 (Some 0) 0
  = mkRun (P := Demo.active_at 0)
      (Throw (Normalized
         "Connection did not become active within the timeout period."))
      0 [EvDateNow; EvDateNow].
Proof.
  apply (waitUntilActive_nonpositive_timeout (P := Demo.active_at 0)
           0%nat Demo.request_1 0 0 0 0 0 0).
  - lia.
  - reflexivity.
  - reflexivity.
  - lia.
Defined.

Lemma waitUntilActive_stops_on_failed_fetch_witness :
  ConnectionRequest.waitUntilActive (P := Script.down) 3
    Demo.request_1 (Some 60) 0
  = mkRun (P := Script.down) (Throw (Normalized "request failed")) 10
      [EvDateNow; EvDateNow;
       EvRequest (getConnection (JSome "acc_1")) false].
Proof.
  apply (waitUntilActive_stops_on_failed_fetch (P := Script.down)
           2%nat Demo.request_1 60 0 0 0 0 0 (inl (JsString "503")) 10).
  - reflexivity.
  - reflexivity.
  - lia.
  - reflexivity.
  - intros c. discriminate.
Defined.

(** ** All public methods *)

Section AllMethods.
Context `{P : Platform}.

Lemma try_catch_normalizes {A} (body : M A) w :
  throws_normalized (try_catch body w).
Proof.
  unfold throws_normalized, try_catch.
  destruct (body w) as [[a|e0|] w' es]; cbn; intros e He;
    try discriminate.
  injection He as <-. by exists e0.
Qed.

Lemma telemetry_then_normalizes {A} method file p (body : M A) w :
  throws_normalized ((manualTelemetry method file p ;;; try_catch body) w).
Proof.
  pose proof (try_catch_normalizes body w) as Hbody.
  unfold throws_normalized, bind, manualTelemetry, emit in *.
  by destruct (try_catch body w) as [r w' es].
Qed.

(** X21. No public method lets a raw error out: whatever it throws, be it a
    schema error, a rejected request, an error of its own or one of a
    method it called, is a value that [CEG.handleAllError] returned. *)
Theorem public_methods_throw_normalized
    w appId authScheme appData data single payload this save fuel timeout :
  throws_normalized (Apps.list w)
  ∧ throws_normalized (Apps.get appData w)
  ∧ throws_normalized (Apps.getRequiredParams appId w)
  ∧ throws_normalized (Apps.getRequiredParamsForAuthScheme appId authScheme w)
  ∧ throws_normalized (ConnectedAccounts.list data w)
  ∧ throws_normalized (ConnectedAccounts.create data w)
  ∧ throws_normalized (ConnectedAccounts.get single w)
  ∧ throws_normalized (ConnectedAccounts.delete single w)
  ∧ throws_normalized (ConnectedAccounts.initiate payload w)
  ∧ throws_normalized (ConnectionRequest.saveUserAccessData this save w)
  ∧ throws_normalized (ConnectionRequest.getAuthInfo this single w)
  ∧ throws_normalized (ConnectionRequest.waitUntilActive fuel this timeout w).
Proof.
  repeat apply conj;
    first [apply telemetry_then_normalizes | apply try_catch_normalizes].
Qed.

Lemma initiate_budget payload w :
  (count is_request (events (ConnectedAccounts.initiate payload w)) ≤ 2)%nat
  ∧ (count is_integrations_create
       (events (ConnectedAccounts.initiate payload w)) ≤ 1)%nat.
Proof.
  unfold ConnectedAccounts.initiate, ConnectedAccounts.initiate_try,
    ConnectedAccounts.require_str, ConnectedAccounts.require_obj, Apps.get.
  destruct (truthy_str (InitiateConnectionDataReq.integrationId payload));
    destruct (truthy_str (InitiateConnectionDataReq.authMode payload));
    cbn [negb andb]; unfold_run; split_run; unfold count; cbn; lia.
Qed.

(** X22. Apart from the polling loop, every public method is at most one round
    trip to the backend, or two where it has to look something up first:
    [initiate] sends at most two requests and creates at most one
    integration, [saveUserAccessData] sends at most two requests, every
    other method at most one. *)
Theorem request_budget
    w appId authScheme appData data single payload this save :
  (count is_request (events (Apps.list w)) ≤ 1)%nat
  ∧ (count is_request (events (Apps.get appData w)) ≤ 1)%nat
  ∧ (count is_request (events (Apps.getRequiredParams appId w)) ≤ 1)%nat
  ∧ (count is_request
       (events (Apps.getRequiredParamsForAuthScheme appId authScheme w))
     ≤ 1)%nat
  ∧ (count is_request (events (ConnectedAccounts.list data w)) ≤ 1)%nat
  ∧ (count is_request (events (ConnectedAccounts.create data w)) ≤ 1)%nat
  ∧ (count is_request (events (ConnectedAccounts.get single w)) ≤ 1)%nat
  ∧ (count is_request (events (ConnectedAccounts.delete single w)) ≤ 1)%nat
  ∧ (count is_request (events (ConnectedAccounts.initiate payload w)) ≤ 2)%nat
  ∧ (count is_integrations_create
       (events (ConnectedAccounts.initiate payload w)) ≤ 1)%nat
  ∧ (count is_request
       (events (ConnectionRequest.saveUserAccessData this save w)) ≤ 2)%nat
  ∧ (count is_request
       (events (ConnectionRequest.getAuthInfo this single w)) ≤ 1)%nat.
Proof.
  split; [unfold Apps.list; unfold_run; split_run; unfold count; cbn; lia|].
  split; [unfold Apps.get; unfold_run; split_run; unfold count; cbn; lia|].
  split; [unfold Apps.getRequiredParams, Apps.get; unfold_run; split_run;
          unfold count; cbn; lia|].
  split; [unfold Apps.getRequiredParamsForAuthScheme,
            Apps.getRequiredParams, Apps.get;
          unfold_run; split_run; unfold count; cbn; lia|].
  split; [unfold ConnectedAccounts.list; unfold_run; split_run;
          unfold count; cbn; lia|].
  split; [unfold ConnectedAccounts.create; unfold_run; split_run;
          unfold count; cbn; lia|].
  split; [unfold ConnectedAccounts.get; unfold_run; split_run;
          unfold count; cbn; lia|].
  split; [unfold ConnectedAccounts.delete; unfold_run; split_run;
          unfold count; cbn; lia|].
  split; [apply initiate_budget|].
  split; [apply initiate_budget|].
  split; [unfold ConnectionRequest.saveUserAccessData; unfold_run; split_run;
          unfold count; cbn; lia|].
  unfold ConnectionRequest.getAuthInfo. unfold_run. split_run.
  all: unfold count; cbn; lia.
Qed.
End AllMethods.

Lemma public_methods_throw_normalized_witness :
  result (ConnectedAccounts.get (P := Demo.never_active)
            (SingleConnectionParam.mk "") 0)
  = Throw (Normalized "validation failed")
  ∧ ∃ e0, Normalized "validation failed" = Normalized (Demo.normalize e0).
Proof.
  split; [reflexivity|].
  destruct (public_methods_throw_normalized (P := Demo.never_active)
              0 "github" "OAUTH2" (GetAppDataParams.mk "github") (JsObject [])
              (SingleConnectionParam.mk "") Demo.bare_payload Demo.request_1
              (SaveUserAccessDataParam.mk (JsObject []) None None) 1%nat None)
    as (_ & _ & _ & _ & _ & _ & Hget & _).
  apply Hget. reflexivity.
Defined.
